(** * NAS_watcher: the serial line handler of the alert indicator sketch

    A shallow embedding of [NAS_watcher.ino] (an Arduino UNO sketch driving an
    RGB LED and a TM1637 four digit display from a line oriented serial
    protocol) and the properties of its command handling.

    Layout: machine integers, the Arduino [String] operations the sketch
    calls, the TM1637 driver calls, the sketch itself in a small state and
    trace monad, an interpretation of the trace on the board, and then the
    theorems. *)

From Stdlib Require Import ZArith List String Ascii Bool Lia.
From Stdlib Require Import DecimalString DecimalPos.
Import ListNotations.

Local Open Scope string_scope.
Local Open Scope list_scope.
Local Open Scope Z_scope.

(** ** Machine integers

    The sketch targets the UNO (ATmega328P): [int] has 16 bits and [long]
    has 32 bits.  Values are kept in [Z] and the wrap-around of a
    conversion is written out. *)

Module Machine.

Definition wrap_signed (bits : Z) (x : Z) : Z :=
  (x + 2 ^ (bits - 1)) mod 2 ^ bits - 2 ^ (bits - 1).

Definition to_long (x : Z) : Z := wrap_signed 32 x.
Definition to_int (x : Z) : Z := wrap_signed 16 x.
Definition to_uint8 (x : Z) : Z := x mod 256.
Definition to_uint16 (x : Z) : Z := x mod 65536.

Definition INT_MIN : Z := -32768.
Definition INT_MAX : Z := 32767.

End Machine.
Import Machine.

(** ** The Arduino [String] class

    A [String] is modelled by the bytes of its buffer, [length()] many,
    with allocation taken to succeed.  [loop] appends whatever byte it
    reads, a zero byte included, and the member functions that go through
    the C library ([strchr], [atol], the assignment from a C string in
    [substring]) stop at the first zero byte.  Only the member functions
    the sketch calls are given, each with the behaviour of the core library
    ([WString.cpp]). *)

Module WString.

(** [s.length()] *)
Definition length (s : string) : Z := Z.of_nat (String.length s).

(** The C string that starts a buffer: the bytes before the first zero. *)
Fixpoint cstr (s : string) : string :=
  match s with
  | EmptyString => EmptyString
  | String c rest => if Ascii.eqb c "000" then EmptyString else String c (cstr rest)
  end.

(** [s.indexOf(ch)] is [strchr] on the buffer: the position of the first
    [ch] that no zero byte precedes, or [-1]. *)
Fixpoint indexOf_from (ch : ascii) (s : string) (k : Z) : Z :=
  match s with
  | EmptyString => -1
  | String c rest =>
      if Ascii.eqb c ch then k
      else if Ascii.eqb c "000" then -1
      else indexOf_from ch rest (k + 1)
  end.

Definition indexOf (ch : ascii) (s : string) : Z := indexOf_from ch s 0.

(** [s.substring(left, right)]: the bounds are swapped when out of order,
    a [left] at or past the end gives the empty string and [right] is
    clipped to the length; the result is assigned from the C string at
    [buffer + left], cut at [right], so it ends at a zero byte. *)
Definition substring (left right : nat) (s : string) : string :=
  let (l, r) := if (right <? left)%nat then (right, left) else (left, right) in
  if (String.length s <=? l)%nat then EmptyString
  else
    let r' := Nat.min r (String.length s) in
    cstr (String.substring l (r' - l) s).

(** [s.substring(left)] is [s.substring(left, s.length())]. *)
Definition substring_from (left : nat) (s : string) : string :=
  substring left (String.length s) s.

(** [s.startsWith(p)] is [strncmp] over the length of [p]; for a [p]
    without zero byte that is the comparison of the first bytes. *)
Definition startsWith (p s : string) : bool :=
  if (String.length s <? String.length p)%nat then false
  else String.prefix p s.

(** [isspace] of the C library. *)
Definition isspace (c : ascii) : bool :=
  let n := nat_of_ascii c in
  ((n =? 32) || ((9 <=? n) && (n <=? 13)))%nat.

Definition isdigit (c : ascii) : bool :=
  let n := nat_of_ascii c in
  ((48 <=? n) && (n <=? 57))%nat.

Definition digit_of (c : ascii) : Z := Z.of_nat (nat_of_ascii c) - 48.

Fixpoint skip_space (s : string) : string :=
  match s with
  | String c rest => if isspace c then skip_space rest else s
  | EmptyString => EmptyString
  end.

(** The value of the longest prefix of decimal digits, from [acc]. *)
Fixpoint leading_digits (s : string) (acc : Z) : Z :=
  match s with
  | String c rest =>
      if isdigit c then leading_digits rest (acc * 10 + digit_of c) else acc
  | EmptyString => acc
  end.

(** [atol]: white space is skipped, one sign is accepted, the digits that
    follow are accumulated in a [long] without overflow detection, and
    anything else ends the number (no digit at all gives 0). *)
Definition atol (s : string) : Z :=
  match skip_space s with
  | String "-" rest => to_long (- leading_digits rest 0)
  | String "+" rest => to_long (leading_digits rest 0)
  | rest => to_long (leading_digits rest 0)
  end.

(** [s.toInt()] returns [atol] of the buffer, a [long]. *)
Definition toInt (s : string) : Z := atol s.

End WString.

(** ** The TM1637 display driver

    The display holds one segment byte per position.  [encodeDigit] and the
    digit loop of [showNumberDec] follow the TM1637Display library. *)

Module TM1637.

Definition digitToSegment : list Z :=
  [0x3F; 0x06; 0x5B; 0x4F; 0x66; 0x6D; 0x7D; 0x07;
   0x7F; 0x6F; 0x77; 0x7C; 0x39; 0x5E; 0x79; 0x71].

Definition minusSegments : Z := 0x40.

(** [encodeDigit(digit)] is [digitToSegment[digit & 0x0f]]. *)
Definition encodeDigit (digit : Z) : Z :=
  nth (Z.to_nat (Z.land digit 0x0f)) digitToSegment 0.

(** The loop of [showNumberBaseEx], from the last position to the first:
    [i] positions are left to fill and [acc] holds those already filled. *)
Fixpoint showNumber_loop (i : nat) (base num : Z) (negative leading_zero : bool)
         (acc : list Z) : list Z :=
  match i with
  | O => acc
  | S i' =>
      let digit := to_uint8 (num mod base) in
      let blank := (digit =? 0) && (num =? 0) in
      let d := if blank && negb leading_zero then 0 else encodeDigit digit in
      let d' := if blank && negative then minusSegments else d in
      let negative' := if blank && negative then false else negative in
      showNumber_loop i' base (num / base) negative' leading_zero (d' :: acc)
  end.

(** [showNumberDec(num, leading_zero, length, pos)]: the [length]
    segment bytes it sends. *)
Definition showNumberDec_segments (num : Z) (leading_zero : bool) (length : nat)
  : list Z :=
  let negative := num <? 0 in
  let mag := to_uint16 (if negative then - num else num) in
  if (mag =? 0) && negb leading_zero then
    repeat 0 (length - 1) ++ [encodeDigit 0]
  else showNumber_loop length 10 mag negative leading_zero [].

Definition blank_segments : list Z := [0; 0; 0; 0].

End TM1637.
Import TM1637.

(** ** Effects of the sketch on its peripherals *)

Inductive Effect : Type :=
| PinModeOutput (pin : Z)
| AnalogWrite (pin : Z) (value : Z)
| SerialBegin (baud : Z)
| SerialPrintln (msg : string)
| DisplaySetBrightness (brightness : Z)
| DisplayClear
| DisplaySetSegments (segments : list Z)
| DisplayShowNumberDec (num : Z) (leading_zero : bool) (length pos : Z)
| Delay (ms : Z).

(** ** The global variables of the sketch *)

Record Globals : Type := mkGlobals {
  currentAlertLevel : Z;
  serialData : string;
  currentDateMMDD : string
}.

(** ** A state and trace monad for the sketch

    A computation reads and writes the globals and appends the calls it
    makes to the peripherals, in order. *)

Definition Sketch (A : Type) : Type := Globals -> A * Globals * list Effect.

Definition ret {A : Type} (a : A) : Sketch A := fun g => (a, g, []).

Definition bind {A B : Type} (c : Sketch A) (k : A -> Sketch B) : Sketch B :=
  fun g =>
    let '(a, g1, t1) := c g in
    let '(b, g2, t2) := k a g1 in
    (b, g2, t1 ++ t2).

Declare Scope sketch_scope.
Delimit Scope sketch_scope with sketch.
Notation "x <- c ;; k" := (bind c (fun x => k))
  (at level 61, c at next level, right associativity) : sketch_scope.
Notation "c ;; k" := (bind c (fun _ => k))
  (at level 61, right associativity) : sketch_scope.
Local Open Scope sketch_scope.

Definition emit (e : Effect) : Sketch unit := fun g => (tt, g, [e]).

Definition get_currentAlertLevel : Sketch Z := fun g => (currentAlertLevel g, g, []).
Definition get_serialData : Sketch string := fun g => (serialData g, g, []).
Definition get_currentDateMMDD : Sketch string := fun g => (currentDateMMDD g, g, []).

Definition set_currentAlertLevel (v : Z) : Sketch unit :=
  fun g => (tt, mkGlobals v (serialData g) (currentDateMMDD g), []).
Definition set_serialData (v : string) : Sketch unit :=
  fun g => (tt, mkGlobals (currentAlertLevel g) v (currentDateMMDD g), []).
Definition set_currentDateMMDD (v : string) : Sketch unit :=
  fun g => (tt, mkGlobals (currentAlertLevel g) (serialData g) v, []).

Definition globals_of {A : Type} (r : A * Globals * list Effect) : Globals :=
  snd (fst r).
Definition trace_of {A : Type} (r : A * Globals * list Effect) : list Effect :=
  snd r.

(** ** The sketch *)

Definition PIN_RED : Z := 9.
Definition PIN_GREEN : Z := 10.
Definition PIN_BLUE : Z := 11.

Definition LEVEL_NORMAL : Z := 1.
Definition LEVEL_NOTICE : Z := 2.
Definition LEVEL_ALERT : Z := 3.
Definition LEVEL_OFF : Z := 999.

Definition initial_globals : Globals :=
  mkGlobals LEVEL_OFF "" "0000".

Definition setLedColor (r g b : Z) : Sketch unit :=
  emit (AnalogWrite PIN_RED r) ;;
  emit (AnalogWrite PIN_GREEN g) ;;
  emit (AnalogWrite PIN_BLUE b).

Definition MAX_BRIGHTNESS : Z := 8.

(** The [switch] of [updateAlertLed]: the values of [r], [g] and [b] when
    it is left. *)
Definition updateAlertLed_rgb (level : Z) : Z * Z * Z :=
  if level =? LEVEL_NORMAL then (0, MAX_BRIGHTNESS, 0)
  else if level =? LEVEL_NOTICE then (255, 100, 0)
  else if level =? LEVEL_ALERT then (255, 0, 0)
  else if level =? LEVEL_OFF then (0, 0, 0)
  else (0, 0, 0).

Definition updateAlertLed (level : Z) : Sketch unit :=
  let '(r, g, b) := updateAlertLed_rgb level in
  setLedColor r g b.

(** The digit a one character slice of the date is shown as. *)
Definition date_digit (k : nat) (mmdd : string) : Z :=
  encodeDigit (to_uint8 (WString.toInt (WString.substring k (k + 1) mmdd))).

Definition displayDate (mmdd : string) : Sketch unit :=
  if WString.length mmdd <? 4 then ret tt
  else
    let dispData :=
      [date_digit 0 mmdd; date_digit 1 mmdd; date_digit 2 mmdd; date_digit 3 mmdd] in
    emit (DisplaySetSegments dispData).

(** [serialData.reserve(20)] only sizes the buffer and is left out. *)
Definition setup : Sketch unit :=
  emit (PinModeOutput PIN_RED) ;;
  emit (PinModeOutput PIN_GREEN) ;;
  emit (PinModeOutput PIN_BLUE) ;;
  setLedColor 0 0 0 ;;
  emit (SerialBegin 9600) ;;
  emit (DisplaySetBrightness 0x0a) ;;
  emit DisplayClear.

Definition unexpected_message : string :=
  "Received unexpected single level data after integration.".

(** The branch of [loop] taken when the byte read is a newline: the
    buffered line is handled and the buffer is emptied. *)
Definition loop_newline : Sketch unit :=
  line <- get_serialData ;;
  let separatorIndex := WString.indexOf "_" line in
  (if negb (separatorIndex =? -1) then
     let levelString := WString.substring 0 (Z.to_nat separatorIndex) line in
     let dateData := WString.substring_from (Z.to_nat (separatorIndex + 1)) line in
     let level := to_int (WString.toInt levelString) in
     set_currentAlertLevel level ;;
     stored <- get_currentAlertLevel ;;
     updateAlertLed stored ;;
     (if WString.startsWith "D" dateData || WString.startsWith "d" dateData
      then set_currentDateMMDD (WString.substring_from 1 dateData)
      else ret tt) ;;
     emit (DisplayShowNumberDec level true 4 0) ;;
     emit (Delay 1500) ;;
     mmdd <- get_currentDateMMDD ;;
     displayDate mmdd
   else if WString.startsWith "OFF" line || WString.startsWith "off" line then
     emit DisplayClear ;;
     updateAlertLed LEVEL_OFF
   else
     emit (SerialPrintln unexpected_message)) ;;
  set_serialData "".

(** One pass of [loop]; [rx] is the byte [Serial.read()] returns when
    [Serial.available()] holds, and [None] when no byte is waiting. *)
Definition loop (rx : option ascii) : Sketch unit :=
  (match rx with
   | Some inChar =>
       if Ascii.eqb inChar "010" then loop_newline
       else if negb (Ascii.eqb inChar "013") then
         line <- get_serialData ;;
         set_serialData (line ++ String inChar EmptyString)%string
       else ret tt
   | None => ret tt
   end) ;;
  emit (Delay 10).

(** The passes of [loop] that read the bytes of [input], one per pass. *)
Fixpoint loop_bytes (input : string) : Sketch unit :=
  match input with
  | EmptyString => ret tt
  | String c rest => loop (Some c) ;; loop_bytes rest
  end.

(** ** The board: what the peripherals show after a trace *)

Record Board : Type := mkBoard {
  led_red : Z;
  led_green : Z;
  led_blue : Z;
  segments : list Z;
  serial_out : list string;
  elapsed_ms : Z
}.

Definition board_after_setup : Board := mkBoard 0 0 0 blank_segments [] 0.

Definition set_segments (segs : list Z) (b : Board) : Board :=
  mkBoard (led_red b) (led_green b) (led_blue b) segs (serial_out b) (elapsed_ms b).

Definition step_board (b : Board) (e : Effect) : Board :=
  match e with
  | AnalogWrite pin v =>
      if pin =? PIN_RED then
        mkBoard v (led_green b) (led_blue b) (segments b) (serial_out b) (elapsed_ms b)
      else if pin =? PIN_GREEN then
        mkBoard (led_red b) v (led_blue b) (segments b) (serial_out b) (elapsed_ms b)
      else if pin =? PIN_BLUE then
        mkBoard (led_red b) (led_green b) v (segments b) (serial_out b) (elapsed_ms b)
      else b
  | SerialPrintln msg =>
      mkBoard (led_red b) (led_green b) (led_blue b) (segments b)
              (serial_out b ++ [msg]) (elapsed_ms b)
  | DisplayClear => set_segments blank_segments b
  | DisplaySetSegments segs => set_segments segs b
  | DisplayShowNumberDec num lz len _ =>
      set_segments (showNumberDec_segments num lz (Z.to_nat len)) b
  | Delay ms =>
      mkBoard (led_red b) (led_green b) (led_blue b) (segments b) (serial_out b)
              (elapsed_ms b + ms)
  | PinModeOutput _ | SerialBegin _ | DisplaySetBrightness _ => b
  end.

Definition run_board (b : Board) (t : list Effect) : Board :=
  fold_left step_board t b.

(** The segments a display call writes, when the effect is one.  The
    sketch only writes the full width of the display, from position 0. *)
Definition display_write (e : Effect) : option (list Z) :=
  match e with
  | DisplayClear => Some blank_segments
  | DisplaySetSegments segs => Some segs
  | DisplayShowNumberDec num lz len _ => Some (showNumberDec_segments num lz (Z.to_nat len))
  | _ => None
  end.

(** The time a trace spends in [delay] before its first display write. *)
Fixpoint dwell (t : list Effect) : Z :=
  match t with
  | [] => 0
  | Delay ms :: rest => ms + dwell rest
  | e :: rest =>
      match display_write e with
      | Some _ => 0
      | None => dwell rest
      end
  end.

(** The display over a trace: each frame written, with the time it stays
    before the next write (or the end of the trace). *)
Fixpoint frames (t : list Effect) : list (list Z * Z) :=
  match t with
  | [] => []
  | e :: rest =>
      match display_write e with
      | Some segs => (segs, dwell rest) :: frames rest
      | None => frames rest
      end
  end.

(** The segments of a row of decimal digits. *)
Definition glyphs (digits : list Z) : list Z := map encodeDigit digits.

(** The decimal rendering of an integer, as a sender would print it. *)
Definition decimal (n : Z) : string := NilZero.string_of_int (Z.to_int n).

(** ** Shapes of lines *)

(** [ch] does not occur in [s]. *)
Fixpoint absent (ch : ascii) (s : string) : Prop :=
  match s with
  | EmptyString => True
  | String c rest => c <> ch /\ absent ch rest
  end.

Definition is_digit_string (s : string) : Prop :=
  Forall (fun c => WString.isdigit c = true) (list_ascii_of_string s).

(** The text [atol] reads digits from: white space and one sign skipped. *)
Definition after_sign (s : string) : string :=
  match WString.skip_space s with
  | String "-" rest => rest
  | String "+" rest => rest
  | rest => rest
  end.

Definition begins_with_digit (s : string) : bool :=
  match s with
  | String c _ => WString.isdigit c
  | EmptyString => false
  end.

(** A text of white space only. *)
Definition is_space_string (s : string) : Prop :=
  Forall (fun c => WString.isspace c = true) (list_ascii_of_string s).

(** A date code: exactly four decimal digits. *)
Definition is_date_code (s : string) : Prop :=
  String.length s = 4%nat /\ is_digit_string s.

(** ** Derived descriptions of what the sketch does *)

(** The buffer once the bytes of [line] have been received. *)
Definition with_line (line : string) (g : Globals) : Globals :=
  mkGlobals (currentAlertLevel g) line (currentDateMMDD g).

(** The calls [updateAlertLed level] makes. *)
Definition led_trace (level : Z) : list Effect :=
  let '(r, g, b) := updateAlertLed_rgb level in
  [AnalogWrite PIN_RED r; AnalogWrite PIN_GREEN g; AnalogWrite PIN_BLUE b].

(** The four segment bytes [displayDate] computes. *)
Definition date_segments (mmdd : string) : list Z :=
  [date_digit 0 mmdd; date_digit 1 mmdd; date_digit 2 mmdd; date_digit 3 mmdd].

(** The calls [displayDate mmdd] makes. *)
Definition date_trace (mmdd : string) : list Effect :=
  if WString.length mmdd <? 4 then [] else [DisplaySetSegments (date_segments mmdd)].

(** The date held after a line whose text after the separator is
    [dateData], when [old] was held before. *)
Definition stored_date (dateData old : string) : string :=
  if WString.startsWith "D" dateData || WString.startsWith "d" dateData
  then WString.substring_from 1 dateData
  else old.

(** The decimal digits of a text, character by character. *)
Definition digits_of (s : string) : list Z :=
  map WString.digit_of (list_ascii_of_string s).

Definition newline : string := String "010" EmptyString.

(** ** Descriptions used for the line assembler, the date display and time *)

(** A received text without its carriage returns, which [loop] drops. *)
Fixpoint strip_cr (s : string) : string :=
  match s with
  | EmptyString => EmptyString
  | String c rest =>
      if Ascii.eqb c "013" then strip_cr rest else String c (strip_cr rest)
  end.

(** The digit a character of the date is shown as. *)
Definition shown_digit (c : ascii) : Z :=
  if WString.isdigit c then WString.digit_of c else 0.

(** The time a trace spends in [delay]. *)
Fixpoint total_delay (t : list Effect) : Z :=
  match t with
  | [] => 0
  | Delay ms :: rest => ms + total_delay rest
  | _ :: rest => total_delay rest
  end.

(** The stored level is a value of type [int]. *)
Definition level_in_int (g : Globals) : Prop :=
  INT_MIN <= currentAlertLevel g <= INT_MAX.

Definition led (b : Board) : Z * Z * Z := (led_red b, led_green b, led_blue b).

Example indexOf_ex1 : WString.indexOf "_" "1_D1109" = 1.
Proof. reflexivity. Qed.

Example indexOf_ex2 : WString.indexOf "_" "OFF" = -1.
Proof. reflexivity. Qed.

Example substring_ex1 : WString.substring_from 2 "1_D1109" = "D1109".
Proof. reflexivity. Qed.

Example substring_ex2 : WString.substring 0 1 "1_D1109" = "1".
Proof. reflexivity. Qed.

Example indexOf_stops_at_zero :
  WString.indexOf "_" (String "000" "1_D1109") = -1.
Proof. reflexivity. Qed.

Example substring_stops_at_zero :
  WString.substring_from 2 ("1_D1" ++ String "000" "09") = "D1".
Proof. reflexivity. Qed.

Example zero_byte_line :
  loop_newline (mkGlobals 3 (String "000" "1_D1109") "0000") =
  (tt, mkGlobals 3 "" "0000", [SerialPrintln unexpected_message]).
Proof. reflexivity. Qed.

Example toInt_ex1 : WString.toInt "12ab" = 12.
Proof. reflexivity. Qed.

Example toInt_ex2 : WString.toInt "OFF" = 0.
Proof. reflexivity. Qed.

Example toInt_ex3 : WString.toInt " -42" = -42.
Proof. reflexivity. Qed.

Example run_1_D1109 :
  loop_newline (mkGlobals LEVEL_OFF "1_D1109" "0000") =
  (tt, mkGlobals 1 "" "1109",
   [AnalogWrite 9 0; AnalogWrite 10 8; AnalogWrite 11 0;
    DisplayShowNumberDec 1 true 4 0; Delay 1500;
    DisplaySetSegments (glyphs [1; 1; 0; 9])]).
Proof. reflexivity. Qed.

Example show_1 : showNumberDec_segments 1 true 4 = glyphs [0; 0; 0; 1].
Proof. reflexivity. Qed.

Example show_neg5 : showNumberDec_segments (-5) true 4 = [0x3F; 0x3F; 0x40; 0x6D].
Proof. reflexivity. Qed.

Example toInt_wraps : to_int (WString.toInt "40000") = -25536.
Proof. reflexivity. Qed.

Example setup_run :
  setup initial_globals =
  (tt, initial_globals,
   [PinModeOutput 9; PinModeOutput 10; PinModeOutput 11;
    AnalogWrite 9 0; AnalogWrite 10 0; AnalogWrite 11 0;
    SerialBegin 9600; DisplaySetBrightness 10; DisplayClear]).
Proof. reflexivity. Qed.

Example decimal_ex : decimal (-120) = "-120" /\ decimal 0 = "0" /\ decimal 7 = "7".
Proof. repeat split. Qed.

(** ** Facts about the [String] operations *)

Section StringFacts.

Lemma indexOf_from_absent (ch : ascii) (s : string) (k : Z) :
  absent ch s -> WString.indexOf_from ch s k = -1.
Proof.
  revert k. induction s as [|c s IH]; intros k H; simpl in *.
  - reflexivity.
  - destruct H as [Hc Hs].
    destruct (Ascii.eqb_spec c ch) as [E|_]; [contradiction|].
    destruct (Ascii.eqb c "000"); [reflexivity|].
    now apply IH.
Qed.

Lemma indexOf_from_first (ch : ascii) (a b : string) (k : Z) :
  absent ch a -> absent "000" a ->
  WString.indexOf_from ch (a ++ String ch b)%string k = k + Z.of_nat (String.length a).
Proof.
  revert k. induction a as [|c a IH]; intros k H H0; simpl in *.
  - rewrite Ascii.eqb_refl. lia.
  - destruct H as [Hc Ha]. destruct H0 as [Hz Hza].
    destruct (Ascii.eqb_spec c ch) as [E|_]; [contradiction|].
    destruct (Ascii.eqb_spec c "000") as [E|_]; [contradiction|].
    rewrite IH by assumption. lia.
Qed.

Lemma indexOf_absent (ch : ascii) (s : string) :
  absent ch s -> WString.indexOf ch s = -1.
Proof. apply indexOf_from_absent. Qed.

Lemma indexOf_first (ch : ascii) (a b : string) :
  absent ch a -> absent "000" a ->
  WString.indexOf ch (a ++ String ch b)%string = Z.of_nat (String.length a).
Proof. intros H H0. unfold WString.indexOf. now rewrite indexOf_from_first. Qed.

(** [strchr] either finds nothing, or the buffer splits at a [ch] that
    neither [ch] nor a zero byte precedes. *)
Lemma indexOf_from_split (ch : ascii) (s : string) (k : Z) :
  WString.indexOf_from ch s k = -1 \/
  exists a b, s = (a ++ String ch b)%string /\ absent ch a /\ absent "000" a.
Proof.
  revert k. induction s as [|c s IH]; intros k; simpl.
  - now left.
  - destruct (Ascii.eqb_spec c ch) as [E|N].
    + right. subst c. exists EmptyString, s. simpl. auto.
    + destruct (Ascii.eqb_spec c "000") as [E0|N0]; [now left|].
      destruct (IH (k + 1)) as [E|(a & b & Es & Ha & Hz)]; [now left|].
      right. exists (String c a), b. subst s. simpl. auto.
Qed.

Lemma cstr_nul_free (s : string) : absent "000" s -> WString.cstr s = s.
Proof.
  induction s as [|c s IH]; simpl; [reflexivity|]. intros [Hc Hs].
  destruct (Ascii.eqb_spec c "000") as [E|_]; [contradiction|].
  now rewrite IH.
Qed.

Lemma cstr_is_nul_free (s : string) : absent "000" (WString.cstr s).
Proof.
  induction s as [|c s IH]; simpl; [exact I|].
  destruct (Ascii.eqb_spec c "000") as [E|N]; simpl; auto.
Qed.

Lemma cstr_twice (s : string) : WString.cstr (WString.cstr s) = WString.cstr s.
Proof. apply cstr_nul_free, cstr_is_nul_free. Qed.

Lemma cstr_length (s : string) :
  (String.length (WString.cstr s) <= String.length s)%nat.
Proof.
  induction s as [|c s IH]; simpl; [lia|].
  destruct (Ascii.eqb c "000"); simpl; lia.
Qed.

(** A line in which [ch] occurs splits at its first occurrence. *)
Lemma split_at_first (ch : ascii) (s : string) :
  ~ absent ch s ->
  exists a b, s = (a ++ String ch b)%string /\ absent ch a.
Proof.
  induction s as [|c s IH]; simpl; intros H.
  - now destruct H.
  - destruct (ascii_dec c ch) as [E|N].
    + subst c. exists EmptyString, s. simpl. auto.
    + destruct IH as (a & b & Es & Ha).
      { intros Hs. apply H. auto. }
      exists (String c a), b. simpl. subst s. auto.
Qed.

Lemma length_app (a b : string) :
  String.length (a ++ b) = (String.length a + String.length b)%nat.
Proof. induction a as [|c a IH]; simpl; [reflexivity|now rewrite IH]. Qed.

Lemma std_substring_take (a b : string) :
  String.substring 0 (String.length a) (a ++ b) = a.
Proof.
  induction a as [|c a IH]; simpl.
  - now destruct b.
  - now rewrite IH.
Qed.

Lemma std_substring_drop (a b : string) (m : nat) :
  String.substring (String.length a) m (a ++ b) = String.substring 0 m b.
Proof.
  induction a as [|c a IH]; simpl.
  - reflexivity.
  - apply IH.
Qed.

Lemma std_substring_all (s : string) :
  String.substring 0 (String.length s) s = s.
Proof.
  induction s as [|c s IH]; simpl; [reflexivity|now rewrite IH].
Qed.

(** [levelString]: the text before the separator. *)
Lemma substring_before (a b : string) (c : ascii) :
  absent "000" a ->
  WString.substring 0 (String.length a) (a ++ String c b)%string = a.
Proof.
  intros Hz. unfold WString.substring.
  replace (String.length a <? 0)%nat with false by (symmetry; apply Nat.ltb_ge; lia).
  rewrite length_app. simpl.
  replace (String.length a + S (String.length b) <=? 0)%nat with false
    by (symmetry; apply Nat.leb_gt; lia).
  rewrite Nat.min_l by lia. rewrite Nat.sub_0_r.
  rewrite std_substring_take. now apply cstr_nul_free.
Qed.

(** [dateData]: the text after the separator, up to a zero byte. *)
Lemma substring_after (a b : string) (c : ascii) :
  WString.substring_from (String.length a + 1) (a ++ String c b)%string =
  WString.cstr b.
Proof.
  unfold WString.substring_from, WString.substring.
  rewrite length_app. simpl.
  replace (String.length a + S (String.length b) <? String.length a + 1)%nat
    with false by (symmetry; apply Nat.ltb_ge; lia).
  destruct (String.length a + S (String.length b) <=? String.length a + 1)%nat eqn:E2.
  - apply Nat.leb_le in E2.
    assert (String.length b = 0%nat) as Hb by lia.
    now destruct b.
  - idtac.
    rewrite Nat.min_id.
    replace (a ++ String c b)%string with ((a ++ String c EmptyString) ++ b)%string.
    2:{ clear. induction a as [|x a IH]; simpl; [reflexivity|now rewrite IH]. }
    replace (String.length a + 1)%nat with (String.length (a ++ String c EmptyString)).
    2:{ rewrite length_app. reflexivity. }
    rewrite std_substring_drop.
    replace (String.length a + S (String.length b) -
             String.length (a ++ String c EmptyString))%nat
      with (String.length b) by (rewrite length_app; simpl; lia).
    now rewrite std_substring_all.
Qed.

(** The date candidate: the text after the leading [D] or [d]. *)
Lemma substring_from_1 (c : ascii) (d : string) :
  WString.substring_from 1 (String c d) = WString.cstr d.
Proof.
  exact (substring_after EmptyString d c).
Qed.

Lemma cstr_cons (c : ascii) (d : string) :
  c <> "000"%char -> WString.cstr (String c d) = String c (WString.cstr d).
Proof.
  intros H. simpl. now destruct (Ascii.eqb_spec c "000").
Qed.

(** A one byte prefix test sees the same first byte in the C string. *)
Lemma startsWith_cstr (c : ascii) (s : string) :
  c <> "000"%char ->
  WString.startsWith (String c EmptyString) (WString.cstr s) =
  WString.startsWith (String c EmptyString) s.
Proof.
  intros Hc. destruct s as [|x s]; [reflexivity|]. simpl WString.cstr.
  destruct (Ascii.eqb_spec x "000") as [->|Hx].
  - unfold WString.startsWith. simpl.
    destruct (ascii_dec c "000") as [E|_]; [contradiction|reflexivity].
  - unfold WString.startsWith. simpl.
    destruct (ascii_dec c x); [|reflexivity].
    destruct s as [|y s]; [reflexivity|].
    simpl. now destruct (Ascii.eqb y "000").
Qed.

Lemma startsWith_cons (c : ascii) (d : string) :
  WString.startsWith (String c EmptyString) (String c d) = true.
Proof.
  unfold WString.startsWith. simpl.
  destruct (ascii_dec c c) as [_|N]; [now destruct d|congruence].
Qed.

Lemma absent_app (ch : ascii) (a b : string) :
  absent ch a -> absent ch b -> absent ch (a ++ b)%string.
Proof.
  induction a as [|c a IH]; simpl; [tauto|]. intros [Hc Ha] Hb. auto.
Qed.

Lemma append_assoc (a b c : string) :
  ((a ++ b) ++ c)%string = (a ++ b ++ c)%string.
Proof. induction a as [|x a IH]; simpl; [reflexivity|now rewrite IH]. Qed.

(** [strchr] finds nothing exactly when the C string holds no [ch]. *)
Lemma indexOf_from_none (ch : ascii) (s : string) (k : Z) :
  ch <> "000"%char -> 0 <= k ->
  (WString.indexOf_from ch s k = -1 <-> absent ch (WString.cstr s)).
Proof.
  intros Hch. revert k. induction s as [|c s IH]; intros k Hk; simpl.
  - tauto.
  - destruct (Ascii.eqb_spec c ch) as [E|N].
    + subst c. destruct (Ascii.eqb_spec ch "000") as [E0|_]; [contradiction|].
      simpl. split; [lia | intros [H _]; now destruct H].
    + destruct (Ascii.eqb_spec c "000") as [E0|N0]; simpl; [tauto|].
      rewrite IH by lia. tauto.
Qed.

Lemma indexOf_none (s : string) :
  WString.indexOf "_" s = -1 <-> absent "_" (WString.cstr s).
Proof. apply indexOf_from_none; [discriminate | lia]. Qed.

Lemma space_string_absent (ch : ascii) (ws : string) :
  WString.isspace ch = false -> is_space_string ws -> absent ch ws.
Proof.
  unfold is_space_string. intros Hch.
  induction ws as [|c ws IH]; simpl; intros H; [exact I|].
  inversion H as [|? ? Hc Hs]; subst. split; [|auto].
  intros ->. congruence.
Qed.

Lemma skip_space_app (ws s : string) :
  is_space_string ws ->
  WString.skip_space (ws ++ s) = WString.skip_space s.
Proof.
  unfold is_space_string.
  induction ws as [|c ws IH]; simpl; intros H; [reflexivity|].
  inversion H as [|? ? Hc Hs]; subst. rewrite Hc. auto.
Qed.

Lemma toInt_after_space (ws s : string) :
  is_space_string ws -> WString.toInt (ws ++ s) = WString.toInt s.
Proof.
  intros H. unfold WString.toInt, WString.atol. now rewrite skip_space_app.
Qed.

End StringFacts.

(** ** The sketch, branch by branch *)

Section Branches.

Lemma updateAlertLed_run (level : Z) (g : Globals) :
  updateAlertLed level g = (tt, g, led_trace level).
Proof.
  unfold updateAlertLed, led_trace.
  destruct (updateAlertLed_rgb level) as [[r gr] b]. reflexivity.
Qed.

Lemma displayDate_run (mmdd : string) (g : Globals) :
  displayDate mmdd g = (tt, g, date_trace mmdd).
Proof.
  unfold displayDate, date_trace, date_segments.
  destruct (WString.length mmdd <? 4); reflexivity.
Qed.

(** A line with a separator that no zero byte precedes: the level and
    date update.  [dateData] is the C string after the separator. *)
Lemma loop_newline_update (g : Globals) (pre post : string) :
  absent "_" pre ->
  absent "000" pre ->
  serialData g = (pre ++ String "_" post)%string ->
  let level := to_int (WString.toInt pre) in
  let date := stored_date (WString.cstr post) (currentDateMMDD g) in
  loop_newline g =
  (tt, mkGlobals level "" date,
   led_trace level ++
   [DisplayShowNumberDec level true 4 0; Delay 1500] ++ date_trace date).
Proof.
  intros Hpre Hz Hline level date.
  unfold loop_newline, bind, get_serialData.
  rewrite Hline, indexOf_first by assumption.
  replace (negb (Z.of_nat (String.length pre) =? -1)) with true
    by (symmetry; apply negb_true_iff, Z.eqb_neq; lia).
  rewrite Nat2Z.id.
  replace (Z.to_nat (Z.of_nat (String.length pre) + 1))
    with (String.length pre + 1)%nat by lia.
  rewrite substring_before, substring_after by assumption.
  fold level.
  unfold set_currentAlertLevel, get_currentAlertLevel. simpl.
  rewrite updateAlertLed_run.
  unfold date, stored_date.
  destruct (WString.startsWith "D" (WString.cstr post) ||
            WString.startsWith "d" (WString.cstr post));
    unfold set_currentDateMMDD, ret, emit, get_currentDateMMDD, set_serialData;
    simpl; rewrite displayDate_run; simpl;
    rewrite ?app_nil_r, <- ?app_assoc; reflexivity.
Qed.

(** A line in which [strchr] finds no separator and that starts with
    [OFF] or [off]. *)
Lemma loop_newline_off_at (g : Globals) :
  WString.indexOf "_" (serialData g) = -1 ->
  WString.startsWith "OFF" (serialData g) || WString.startsWith "off" (serialData g) = true ->
  loop_newline g =
  (tt, mkGlobals (currentAlertLevel g) "" (currentDateMMDD g),
   DisplayClear :: led_trace LEVEL_OFF).
Proof.
  intros Habs Hoff.
  unfold loop_newline, bind, get_serialData.
  rewrite Habs. simpl negb. cbv iota.
  rewrite Hoff. reflexivity.
Qed.

(** A line without separator that starts with [OFF] or [off]. *)
Lemma loop_newline_off (g : Globals) :
  absent "_" (serialData g) ->
  WString.startsWith "OFF" (serialData g) || WString.startsWith "off" (serialData g) = true ->
  loop_newline g =
  (tt, mkGlobals (currentAlertLevel g) "" (currentDateMMDD g),
   DisplayClear :: led_trace LEVEL_OFF).
Proof.
  intros Habs Hoff. apply loop_newline_off_at; [|assumption].
  now apply indexOf_absent.
Qed.

(** Every line in which [strchr] finds a separator has the shape of an
    update line, and is one. *)
Lemma separator_line_is_update (g : Globals) :
  WString.indexOf "_" (serialData g) <> -1 ->
  exists pre post,
    serialData g = (pre ++ String "_" post)%string /\
    absent "_" pre /\ absent "000" pre /\
    globals_of (loop_newline g) =
    mkGlobals (to_int (WString.toInt pre)) ""
      (stored_date (WString.cstr post) (currentDateMMDD g)).
Proof.
  intros H.
  destruct (indexOf_from_split "_" (serialData g) 0) as [E|(pre & post & E & Hpre & Hz)];
    [contradiction|].
  exists pre, post. repeat split; try assumption.
  now rewrite (loop_newline_update g pre post Hpre Hz E).
Qed.

(** Any other line in which [strchr] finds no separator. *)
Lemma loop_newline_other_at (g : Globals) :
  WString.indexOf "_" (serialData g) = -1 ->
  WString.startsWith "OFF" (serialData g) = false ->
  WString.startsWith "off" (serialData g) = false ->
  loop_newline g =
  (tt, mkGlobals (currentAlertLevel g) "" (currentDateMMDD g),
   [SerialPrintln unexpected_message]).
Proof.
  intros Habs H1 H2.
  unfold loop_newline, bind, get_serialData.
  rewrite Habs. simpl negb. cbv iota.
  rewrite H1, H2. reflexivity.
Qed.

(** Any other line. *)
Lemma loop_newline_other (g : Globals) :
  absent "_" (serialData g) ->
  WString.startsWith "OFF" (serialData g) = false ->
  WString.startsWith "off" (serialData g) = false ->
  loop_newline g =
  (tt, mkGlobals (currentAlertLevel g) "" (currentDateMMDD g),
   [SerialPrintln unexpected_message]).
Proof.
  intros Habs H1 H2. apply loop_newline_other_at; try assumption.
  now apply indexOf_absent.
Qed.

End Branches.

(** ** Decimal renderings and [toInt] *)

Section DecimalFacts.

Import DecimalPos.Unsigned.

Lemma rev_cons_value (u : Decimal.uint) (k : Decimal.uint) :
  of_lu (Decimal.revapp u k) = (of_lu (Decimal.rev u) + of_lu k * 10 ^ usize u)%N.
Proof. apply of_lu_revapp. Qed.

Lemma leading_digits_uint (u : Decimal.uint) (acc : Z) :
  WString.leading_digits (NilEmpty.string_of_uint u) acc =
  acc * 10 ^ Z.of_N (usize u) + Z.of_N (of_lu (Decimal.rev u)).
Proof.
  revert acc.
  induction u as [|u IH|u IH|u IH|u IH|u IH|u IH|u IH|u IH|u IH|u IH]; intros acc;
    [simpl; lia| | | | | | | | | | ];
    cbn [NilEmpty.string_of_uint WString.leading_digits];
    (match goal with
     | |- context [WString.isdigit ?c] =>
         change (WString.isdigit c) with true; cbv iota
     end);
    unfold Decimal.rev; cbn [Decimal.revapp];
    (match goal with
     | |- context [of_lu (Decimal.revapp u (?d Decimal.Nil))] =>
         rewrite (rev_cons_value u (d Decimal.Nil))
     end);
    rewrite IH; cbn [usize];
    rewrite N2Z.inj_succ, Z.pow_succ_r by lia;
    rewrite N2Z.inj_add, N2Z.inj_mul, N2Z.inj_pow;
    cbn [of_lu]; unfold WString.digit_of; simpl Z.of_nat;
    simpl Z.of_N; ring.
Qed.

Lemma uint_digits (u : Decimal.uint) :
  is_digit_string (NilEmpty.string_of_uint u).
Proof.
  unfold is_digit_string.
  induction u; simpl; constructor; auto.
Qed.

Lemma digit_string_absent (s : string) :
  is_digit_string s -> absent "_" s.
Proof.
  unfold is_digit_string.
  induction s as [|c s IH]; simpl; intros H; [exact I|].
  inversion H as [|? ? Hc Hs]; subst. split; [|auto].
  intros ->. discriminate Hc.
Qed.

Lemma digit_string_nul_free (s : string) :
  is_digit_string s -> absent "000" s.
Proof.
  unfold is_digit_string.
  induction s as [|c s IH]; simpl; intros H; [exact I|].
  inversion H as [|? ? Hc Hs]; subst. split; [|auto].
  intros ->. discriminate Hc.
Qed.

Lemma pos_text (p : positive) :
  NilZero.string_of_uint (Pos.to_uint p) = NilEmpty.string_of_uint (Pos.to_uint p).
Proof.
  pose proof (to_uint_nonnil p) as H.
  destruct (Pos.to_uint p); [contradiction| | | | | | | | | | ]; reflexivity.
Qed.

Lemma leading_digits_pos (p : positive) :
  WString.leading_digits (NilEmpty.string_of_uint (Pos.to_uint p)) 0 = Z.pos p.
Proof.
  rewrite leading_digits_uint, <- of_uint_alt, of_to. reflexivity.
Qed.

(** A digit is neither white space nor a sign, so [atol] reads a text of
    digits from its first character. *)
Lemma atol_digits (s : string) :
  is_digit_string s -> WString.atol s = to_long (WString.leading_digits s 0).
Proof.
  unfold is_digit_string, WString.atol.
  destruct s as [|c s]; [reflexivity|]. simpl. intros H.
  inversion H as [|? ? Hc Hs]; subst.
  assert (WString.isspace c = false) as Hsp.
  { unfold WString.isdigit in Hc. unfold WString.isspace.
    apply andb_true_iff in Hc as [H1 H2].
    apply Nat.leb_le in H1. apply Nat.leb_le in H2.
    apply orb_false_iff. split.
    - apply Nat.eqb_neq. lia.
    - apply andb_false_iff. right. apply Nat.leb_gt. lia. }
  rewrite Hsp.
  destruct (ascii_dec c "-") as [->|Hm]; [discriminate Hc|].
  destruct (ascii_dec c "+") as [->|Hp]; [discriminate Hc|].
  destruct c as [[] [] [] [] [] [] [] []]; try reflexivity; congruence.
Qed.

Lemma decimal_absent (n : Z) : absent "_" (decimal n).
Proof.
  unfold decimal.
  destruct n as [|p|p]; simpl.
  - split; [discriminate|exact I].
  - rewrite pos_text. apply digit_string_absent, uint_digits.
  - split; [discriminate|]. rewrite pos_text.
    apply digit_string_absent, uint_digits.
Qed.

Lemma decimal_nul_free (n : Z) : absent "000" (decimal n).
Proof.
  unfold decimal.
  destruct n as [|p|p]; simpl.
  - split; [discriminate|exact I].
  - rewrite pos_text. apply digit_string_nul_free, uint_digits.
  - split; [discriminate|]. rewrite pos_text.
    apply digit_string_nul_free, uint_digits.
Qed.

(** [toInt] reads back a decimal rendering, as a [long]. *)
Lemma toInt_decimal (n : Z) : WString.toInt (decimal n) = to_long n.
Proof.
  unfold WString.toInt, decimal.
  destruct n as [|p|p]; simpl.
  - reflexivity.
  - rewrite pos_text, atol_digits by apply uint_digits.
    now rewrite leading_digits_pos.
  - unfold WString.atol. cbn [WString.skip_space].
    change (WString.isspace "-") with false. cbv iota.
    rewrite pos_text, leading_digits_pos. reflexivity.
Qed.

Lemma to_int_long_small (n : Z) :
  INT_MIN <= n <= INT_MAX -> to_int (to_long n) = n.
Proof.
  unfold INT_MIN, INT_MAX, to_int, to_long, wrap_signed. intros H.
  change (2 ^ (32 - 1)) with 2147483648. change (2 ^ 32) with 4294967296.
  change (2 ^ (16 - 1)) with 32768. change (2 ^ 16) with 65536.
  rewrite (Z.mod_small (n + 2147483648)) by lia.
  replace (n + 2147483648 - 2147483648) with n by lia.
  rewrite Z.mod_small by lia. lia.
Qed.

Lemma to_int_range (x : Z) : INT_MIN <= to_int x <= INT_MAX.
Proof.
  unfold INT_MIN, INT_MAX, to_int, wrap_signed.
  change (2 ^ (16 - 1)) with 32768. change (2 ^ 16) with 65536.
  pose proof (Z.mod_pos_bound (x + 32768) 65536). lia.
Qed.

End DecimalFacts.

(** ** The board under the traces of the sketch *)

Section BoardFacts.

Lemma run_board_app (b : Board) (t1 t2 : list Effect) :
  run_board b (t1 ++ t2) = run_board (run_board b t1) t2.
Proof. apply fold_left_app. Qed.

Lemma run_board_led (b : Board) (level : Z) :
  run_board b (led_trace level) =
  let '(r, g, bl) := updateAlertLed_rgb level in
  mkBoard r g bl (segments b) (serial_out b) (elapsed_ms b).
Proof.
  unfold led_trace. destruct (updateAlertLed_rgb level) as [[r g] bl].
  reflexivity.
Qed.

Lemma frames_led (level : Z) (rest : list Effect) :
  frames (led_trace level ++ rest) = frames rest.
Proof.
  unfold led_trace. now destruct (updateAlertLed_rgb level) as [[r g] bl].
Qed.

Lemma date_trace_short (mmdd : string) :
  (String.length mmdd < 4)%nat -> date_trace mmdd = [].
Proof.
  intros H. unfold date_trace, WString.length.
  replace (Z.of_nat (String.length mmdd) <? 4) with true
    by (symmetry; apply Z.ltb_lt; lia).
  reflexivity.
Qed.

Lemma date_trace_long (mmdd : string) :
  (4 <= String.length mmdd)%nat ->
  date_trace mmdd = [DisplaySetSegments (date_segments mmdd)].
Proof.
  intros H. unfold date_trace, WString.length.
  replace (Z.of_nat (String.length mmdd) <? 4) with false
    by (symmetry; apply Z.ltb_ge; lia).
  reflexivity.
Qed.

Lemma digit_range (c : ascii) :
  WString.isdigit c = true -> 0 <= WString.digit_of c <= 9.
Proof.
  unfold WString.isdigit, WString.digit_of. intros H.
  apply andb_true_iff in H as [H1 H2].
  apply Nat.leb_le in H1. apply Nat.leb_le in H2. lia.
Qed.

Lemma toInt_digit (c : ascii) :
  WString.isdigit c = true ->
  to_uint8 (WString.toInt (String c EmptyString)) = WString.digit_of c.
Proof.
  intros H. unfold WString.toInt.
  rewrite atol_digits by (repeat constructor; assumption).
  cbn [WString.leading_digits]. rewrite H.
  pose proof (digit_range c H) as R.
  unfold to_long, wrap_signed, to_uint8.
  change (2 ^ (32 - 1)) with 2147483648. change (2 ^ 32) with 4294967296.
  rewrite (Z.mod_small (0 * 10 + WString.digit_of c + 2147483648)) by lia.
  replace (0 * 10 + WString.digit_of c + 2147483648 - 2147483648)
    with (WString.digit_of c) by lia.
  apply Z.mod_small. lia.
Qed.

Lemma cstr_digit (c : ascii) :
  WString.isdigit c = true -> WString.cstr (String c "") = String c "".
Proof.
  intros H. apply cstr_nul_free. simpl. split; [|exact I].
  intros ->. discriminate H.
Qed.

(** A date code is shown digit by digit. *)
Lemma date_segments_code (d : string) :
  is_date_code d -> date_segments d = glyphs (digits_of d).
Proof.
  intros [Hlen Hdig].
  destruct d as [|c0 [|c1 [|c2 [|c3 [|c4 d]]]]]; try discriminate Hlen.
  unfold is_digit_string in Hdig. simpl in Hdig.
  inversion Hdig as [|? ? H0 Hd1]; subst.
  inversion Hd1 as [|? ? H1 Hd2]; subst.
  inversion Hd2 as [|? ? H2 Hd3]; subst.
  inversion Hd3 as [|? ? H3 _]; subst.
  unfold date_segments, date_digit, glyphs, digits_of.
  change (WString.substring 0 (0 + 1) (String c0 (String c1 (String c2 (String c3 "")))))
    with (WString.cstr (String c0 "")).
  change (WString.substring 1 (1 + 1) (String c0 (String c1 (String c2 (String c3 "")))))
    with (WString.cstr (String c1 "")).
  change (WString.substring 2 (2 + 1) (String c0 (String c1 (String c2 (String c3 "")))))
    with (WString.cstr (String c2 "")).
  change (WString.substring 3 (3 + 1) (String c0 (String c1 (String c2 (String c3 "")))))
    with (WString.cstr (String c3 "")).
  rewrite !cstr_digit by assumption.
  rewrite !toInt_digit by assumption. reflexivity.
Qed.

(** The date held after [D] or [d] and a text: the text up to a zero byte. *)
Lemma stored_date_of_dated (c : ascii) (date old : string) :
  c = "D"%char \/ c = "d"%char ->
  stored_date (WString.cstr (String c date)) old = WString.cstr date.
Proof.
  intros Hc.
  assert (c <> "000"%char) as Hz by (destruct Hc as [-> | ->]; discriminate).
  rewrite cstr_cons by assumption.
  unfold stored_date. rewrite substring_from_1, cstr_twice.
  destruct Hc as [-> | ->].
  - now rewrite (startsWith_cons "D" (WString.cstr date)).
  - rewrite (startsWith_cons "d" (WString.cstr date)). now rewrite orb_true_r.
Qed.

(** No [D] or [d] after the separator: the date held is kept. *)
Lemma stored_date_undated (post old : string) :
  WString.startsWith "D" post = false ->
  WString.startsWith "d" post = false ->
  stored_date (WString.cstr post) old = old.
Proof.
  intros HD Hd. unfold stored_date.
  rewrite (startsWith_cstr "D" post), (startsWith_cstr "d" post) by discriminate.
  now rewrite HD, Hd.
Qed.

End BoardFacts.

(** ** Properties of the command handling *)

(** C1, as stated, fails: after the line [1_D110] the three characters
    [110] are the stored date, not the [0000] held before. *)
Lemma C1_short_date_is_stored :
  let g := mkGlobals LEVEL_OFF "1_D110" "0000" in
  let g' := globals_of (loop_newline g) in
  ~ (currentAlertLevel g' = 1 /\ currentDateMMDD g' = currentDateMMDD g).
Proof.
  cbv zeta. intros [_ H]. vm_compute in H. discriminate H.
Qed.

(** C1, amended: an update line (a separator that neither another
    separator nor a zero byte precedes) whose text after the separator is
    [D] or [d] and fewer than four characters sets the level to the parsed
    level part and stores those characters as the date; the length is
    looked at only by [displayDate], which then writes nothing for the
    stored date.  The characters are those up to a zero byte, if any. *)
Theorem C1_short_date_update (g : Globals) (pre date : string) (c : ascii) :
  absent "_" pre ->
  absent "000" pre ->
  c = "D"%char \/ c = "d"%char ->
  (String.length (WString.cstr date) < 4)%nat ->
  serialData g = (pre ++ String "_" (String c date))%string ->
  let r := loop_newline g in
  currentAlertLevel (globals_of r) = to_int (WString.toInt pre) /\
  currentDateMMDD (globals_of r) = WString.cstr date /\
  trace_of (displayDate (currentDateMMDD (globals_of r)) (globals_of r)) = [].
Proof.
  intros Hpre Hz Hc Hlen Hline r. subst r.
  rewrite (loop_newline_update g pre (String c date) Hpre Hz Hline).
  unfold globals_of, trace_of. cbn [fst snd currentAlertLevel currentDateMMDD].
  rewrite stored_date_of_dated by assumption.
  rewrite displayDate_run, date_trace_short by assumption.
  auto.
Qed.

Lemma C1_short_date_update_witness :
  let r := loop_newline (mkGlobals LEVEL_OFF "1_D110" "0000") in
  currentAlertLevel (globals_of r) = 1 /\
  currentDateMMDD (globals_of r) = "110" /\
  trace_of (displayDate (currentDateMMDD (globals_of r)) (globals_of r)) = [].
Proof.
  apply (C1_short_date_update (mkGlobals LEVEL_OFF "1_D110" "0000") "1" "110" "D").
  - simpl. split; [discriminate | exact I].
  - simpl. split; [discriminate | exact I].
  - left. reflexivity.
  - simpl. lia.
  - reflexivity.
Defined.

(** C2, at the state left by [1_D1109]: the line [OFF] blanks the display
    and turns the LED off, and keeps the stored date, but the stored level
    is still 1, not [LEVEL_OFF]. *)
Theorem C2_off_keeps_stored_level :
  loop_newline (mkGlobals 1 "OFF" "1109") =
  (tt, mkGlobals 1 "" "1109",
   [DisplayClear; AnalogWrite PIN_RED 0; AnalogWrite PIN_GREEN 0; AnalogWrite PIN_BLUE 0]) /\
  currentAlertLevel (globals_of (loop_newline (mkGlobals 1 "OFF" "1109"))) <> LEVEL_OFF.
Proof.
  split; [reflexivity | vm_compute; discriminate].
Qed.

(** C3, as stated, fails: the Notice level drives red at 255, above
    [MAX_BRIGHTNESS]. *)
Lemma C3_notice_exceeds_max :
  ~ (let '(r, g, b) := updateAlertLed_rgb LEVEL_NOTICE in
     r <= MAX_BRIGHTNESS /\ g <= MAX_BRIGHTNESS /\ b <= MAX_BRIGHTNESS).
Proof.
  vm_compute. intros [H _]. apply H. reflexivity.
Qed.

(** C3, amended: only the Normal level is capped to [MAX_BRIGHTNESS] (its
    triple is [(0, MAX_BRIGHTNESS, 0)]); Notice and Alert are
    [(255, 100, 0)] and [(255, 0, 0)]; every component, for every level,
    lies in 0..255. *)
Theorem C3_brightness (level : Z) :
  let '(r, g, b) := updateAlertLed_rgb level in
  (0 <= r <= 255 /\ 0 <= g <= 255 /\ 0 <= b <= 255) /\
  (level = LEVEL_NORMAL ->
   (r, g, b) = (0, MAX_BRIGHTNESS, 0) /\
   r <= MAX_BRIGHTNESS /\ g <= MAX_BRIGHTNESS /\ b <= MAX_BRIGHTNESS) /\
  (level = LEVEL_NOTICE -> (r, g, b) = (255, 100, 0)) /\
  (level = LEVEL_ALERT -> (r, g, b) = (255, 0, 0)).
Proof.
  unfold updateAlertLed_rgb, LEVEL_NORMAL, LEVEL_NOTICE, LEVEL_ALERT, LEVEL_OFF,
    MAX_BRIGHTNESS.
  destruct (Z.eqb_spec level 1) as [->|N1]; [repeat split; try lia; discriminate|].
  destruct (Z.eqb_spec level 2) as [->|N2]; [repeat split; try lia; discriminate|].
  destruct (Z.eqb_spec level 3) as [->|N3]; [repeat split; try lia; discriminate|].
  destruct (Z.eqb_spec level 999) as [->|N4]; repeat split; try lia; discriminate.
Qed.

Lemma C3_brightness_witness :
  updateAlertLed_rgb LEVEL_NORMAL = (0, MAX_BRIGHTNESS, 0) /\
  updateAlertLed_rgb LEVEL_NOTICE = (255, 100, 0) /\
  updateAlertLed_rgb LEVEL_ALERT = (255, 0, 0).
Proof.
  split; [|split].
  - exact (proj1 (proj1 (proj2 (C3_brightness LEVEL_NORMAL)) eq_refl)).
  - exact (proj1 (proj2 (proj2 (C3_brightness LEVEL_NOTICE))) eq_refl).
  - exact (proj2 (proj2 (proj2 (C3_brightness LEVEL_ALERT))) eq_refl).
Defined.

(** C4, as stated, fails: a level beyond the range of [int] is not the
    level held after its rendering is received. *)
Lemma C4_level_beyond_int :
  let L := 4294967297 in
  let g := mkGlobals LEVEL_OFF (decimal L ++ "_D" ++ "1109") "0000" in
  let g' := globals_of (loop_newline g) in
  ~ (currentAlertLevel g' = L /\ currentDateMMDD g' = "1109").
Proof.
  cbv zeta. intros [H _]. vm_compute in H. discriminate H.
Qed.

(** C4, amended: for every integer [L] in the range of [int]
    (-32768..32767) and every four digit date code [D], the line made of the
    decimal rendering of [L], [_], [D] and [D]'s digits sets the level to
    [L] and the date to [D]: the LED is set for [L], [L] is shown for 1500
    ms and then the digits of [D]. *)
Theorem C4_level_and_date (g : Globals) (L : Z) (D : string) :
  INT_MIN <= L <= INT_MAX ->
  is_date_code D ->
  serialData g = (decimal L ++ "_D" ++ D)%string ->
  let r := loop_newline g in
  currentAlertLevel (globals_of r) = L /\
  currentDateMMDD (globals_of r) = D /\
  trace_of r =
    led_trace L ++
    [DisplayShowNumberDec L true 4 0; Delay 1500;
     DisplaySetSegments (glyphs (digits_of D))].
Proof.
  intros HL HD Hline r. subst r.
  change ("_D" ++ D)%string with (String "_" (String "D" D)) in Hline.
  rewrite (loop_newline_update g (decimal L) (String "D" D)
             (decimal_absent L) (decimal_nul_free L) Hline).
  rewrite toInt_decimal, to_int_long_small by assumption.
  destruct HD as [Hlen Hdig].
  rewrite stored_date_of_dated by (left; reflexivity).
  rewrite (cstr_nul_free D) by (apply digit_string_nul_free; assumption).
  unfold globals_of, trace_of. cbn [fst snd currentAlertLevel currentDateMMDD].
  rewrite date_trace_long by lia.
  rewrite date_segments_code by (split; assumption).
  auto.
Qed.

Lemma C4_level_and_date_witness :
  let r := loop_newline (mkGlobals LEVEL_OFF "-12_D0101" "0000") in
  currentAlertLevel (globals_of r) = -12 /\
  currentDateMMDD (globals_of r) = "0101" /\
  trace_of r =
    led_trace (-12) ++
    [DisplayShowNumberDec (-12) true 4 0; Delay 1500;
     DisplaySetSegments (glyphs (digits_of "0101"))].
Proof.
  apply (C4_level_and_date (mkGlobals LEVEL_OFF "-12_D0101" "0000") (-12) "0101").
  - unfold INT_MIN, INT_MAX. lia.
  - split; [reflexivity | repeat constructor].
  - reflexivity.
Defined.

(** C5: a line without [_] that starts with neither [OFF] nor [off] makes
    the sketch print one diagnostic line on the serial port; the stored
    level and date, the LED and the display stay as they were. *)
Theorem C5_unrecognized_line (g : Globals) (b : Board) :
  absent "_" (serialData g) ->
  WString.startsWith "OFF" (serialData g) = false ->
  WString.startsWith "off" (serialData g) = false ->
  let r := loop_newline g in
  let b' := run_board b (trace_of r) in
  trace_of r = [SerialPrintln unexpected_message] /\
  currentAlertLevel (globals_of r) = currentAlertLevel g /\
  currentDateMMDD (globals_of r) = currentDateMMDD g /\
  serial_out b' = serial_out b ++ [unexpected_message] /\
  (led_red b', led_green b', led_blue b') = (led_red b, led_green b, led_blue b) /\
  segments b' = segments b.
Proof.
  intros Habs H1 H2 r b'. subst b' r.
  rewrite (loop_newline_other g Habs H1 H2).
  repeat split.
Qed.

Lemma C5_unrecognized_line_witness :
  let g := mkGlobals 2 "garbage" "1109" in
  let b := board_after_setup in
  let r := loop_newline g in
  let b' := run_board b (trace_of r) in
  trace_of r = [SerialPrintln unexpected_message] /\
  currentAlertLevel (globals_of r) = currentAlertLevel g /\
  currentDateMMDD (globals_of r) = currentDateMMDD g /\
  serial_out b' = serial_out b ++ [unexpected_message] /\
  (led_red b', led_green b', led_blue b') = (led_red b, led_green b, led_blue b) /\
  segments b' = segments b.
Proof.
  apply (C5_unrecognized_line (mkGlobals 2 "garbage" "1109") board_after_setup).
  - simpl. repeat split; discriminate.
  - reflexivity.
  - reflexivity.
Defined.

(** C6: when the newline that ends [1_D1109] is read, the LED is set to the
    Normal green [(0, MAX_BRIGHTNESS, 0)], the display shows [0001] during
    the 1500 ms delay and is then written with the date [1109], which is
    what it shows afterwards; the same frames result when the line is
    received byte by byte. *)
Theorem C6_scenario_1_D1109 (level0 : Z) (date0 : string) (b : Board) :
  let r := loop (Some "010"%char) (mkGlobals level0 "1_D1109" date0) in
  trace_of r =
    [AnalogWrite PIN_RED 0; AnalogWrite PIN_GREEN MAX_BRIGHTNESS; AnalogWrite PIN_BLUE 0;
     DisplayShowNumberDec 1 true 4 0; Delay 1500;
     DisplaySetSegments (glyphs [1; 1; 0; 9]); Delay 10] /\
  updateAlertLed_rgb LEVEL_NORMAL = (0, MAX_BRIGHTNESS, 0) /\
  frames (trace_of r) = [(glyphs [0; 0; 0; 1], 1500); (glyphs [1; 1; 0; 9], 10)] /\
  globals_of r = mkGlobals 1 "" "1109" /\
  segments (run_board b (trace_of r)) = glyphs [1; 1; 0; 9] /\
  (led_red (run_board b (trace_of r)), led_green (run_board b (trace_of r)),
   led_blue (run_board b (trace_of r))) = (0, MAX_BRIGHTNESS, 0) /\
  frames (trace_of (loop_bytes ("1_D1109" ++ newline) (mkGlobals level0 "" date0))) =
    [(glyphs [0; 0; 0; 1], 1500); (glyphs [1; 1; 0; 9], 10)].
Proof.
  repeat split.
Qed.

(** C7, as stated, fails: the level part of [-5_D1109] does not begin with
    a digit, and the level it gives is -5, not 0. *)
Lemma C7_signed_level_part :
  let g := mkGlobals LEVEL_OFF "-5_D1109" "0000" in
  begins_with_digit "-5" = false /\
  ~ (currentAlertLevel (globals_of (loop_newline g)) = 0).
Proof.
  split; [reflexivity|]. vm_compute. discriminate.
Qed.

(** C7, amended: for an update line (a separator that neither another
    separator nor a zero byte precedes), a level part that, after leading
    white space and one optional sign are skipped, is empty or does not
    begin with a digit gives level 0; a level part made of white space and
    the decimal rendering of an [int], a negative one included, gives that
    [int]; and the conversion gives an [int] for every text. *)
Theorem C7_level_defaults_to_zero :
  (forall s : string, INT_MIN <= to_int (WString.toInt s) <= INT_MAX) /\
  (forall (g : Globals) (pre post : string),
     absent "_" pre ->
     absent "000" pre ->
     serialData g = (pre ++ String "_" post)%string ->
     begins_with_digit (after_sign pre) = false ->
     currentAlertLevel (globals_of (loop_newline g)) = 0) /\
  (forall (g : Globals) (ws post : string) (n : Z),
     is_space_string ws ->
     INT_MIN <= n <= INT_MAX ->
     serialData g = (ws ++ decimal n ++ String "_" post)%string ->
     currentAlertLevel (globals_of (loop_newline g)) = n).
Proof.
  split; [intros s; apply to_int_range|]. split.
  - intros g pre post Hpre Hz Hline Hnum.
    rewrite (loop_newline_update g pre post Hpre Hz Hline).
    unfold globals_of. cbn [fst snd currentAlertLevel].
    assert (WString.leading_digits (after_sign pre) 0 = 0) as Hd.
    { destruct (after_sign pre) as [|c s]; [reflexivity|].
      simpl in Hnum. simpl. now rewrite Hnum. }
    unfold WString.toInt, WString.atol.
    unfold after_sign in Hd.
    destruct (WString.skip_space pre) as [|c s]; [reflexivity|].
    destruct c as [[] [] [] [] [] [] [] []]; rewrite Hd; reflexivity.
  - intros g ws post n Hws Hn Hline.
    rewrite <- append_assoc in Hline.
    assert (absent "_" (ws ++ decimal n)) as Hpre
      by (apply absent_app; [now apply space_string_absent | apply decimal_absent]).
    assert (absent "000" (ws ++ decimal n)) as Hz
      by (apply absent_app; [now apply space_string_absent | apply decimal_nul_free]).
    rewrite (loop_newline_update g (ws ++ decimal n) post Hpre Hz Hline).
    unfold globals_of. cbn [fst snd currentAlertLevel].
    rewrite toInt_after_space, toInt_decimal by assumption.
    now apply to_int_long_small.
Qed.

Lemma C7_level_defaults_to_zero_witness :
  currentAlertLevel (globals_of (loop_newline (mkGlobals 3 "x9_D1109" "0000"))) = 0 /\
  currentAlertLevel (globals_of (loop_newline (mkGlobals 3 "_D1109" "0000"))) = 0 /\
  currentAlertLevel (globals_of (loop_newline (mkGlobals 3 " -5_D1109" "0000"))) = -5.
Proof.
  destruct C7_level_defaults_to_zero as (_ & Hzero & Hnum).
  split; [|split].
  - apply (Hzero (mkGlobals 3 "x9_D1109" "0000") "x9" "D1109").
    + simpl. repeat split; discriminate.
    + simpl. repeat split; discriminate.
    + reflexivity.
    + reflexivity.
  - apply (Hzero (mkGlobals 3 "_D1109" "0000") "" "D1109").
    + exact I.
    + exact I.
    + reflexivity.
    + reflexivity.
  - apply (Hnum (mkGlobals 3 " -5_D1109" "0000") " " "D1109" (-5)).
    + repeat constructor.
    + unfold INT_MIN, INT_MAX. lia.
    + reflexivity.
Defined.

(** The bytes of a line, received one per pass of [loop], end up in the
    buffer; nothing but the closing [delay(10)] of each pass happens. *)
Lemma loop_bytes_line (s : string) (g : Globals) :
  absent "010" s -> absent "013" s ->
  loop_bytes s g =
  (tt, with_line (serialData g ++ s) g, repeat (Delay 10) (String.length s)).
Proof.
  revert g. induction s as [|c s IH]; intros g Hn Hr.
  - simpl. unfold ret, with_line.
    replace (serialData g ++ "")%string with (serialData g).
    + now destruct g.
    + clear. induction (serialData g) as [|x a IHa]; simpl; [reflexivity|now rewrite <- IHa].
  - simpl in Hn, Hr. destruct Hn as [Hc1 Hn]. destruct Hr as [Hc2 Hr].
    cbn [loop_bytes]. unfold bind at 1. unfold loop.
    destruct (Ascii.eqb_spec c "010") as [E|_]; [contradiction|].
    destruct (Ascii.eqb_spec c "013") as [E|_]; [contradiction|].
    cbn [negb]. unfold bind, get_serialData, set_serialData, emit.
    rewrite IH by assumption.
    unfold with_line. cbn [currentAlertLevel serialData currentDateMMDD].
    replace ((serialData g ++ String c "") ++ s)%string
      with (serialData g ++ String c s)%string.
    + reflexivity.
    + clear. induction (serialData g) as [|x a IHa]; simpl; [reflexivity|now rewrite IHa].
Qed.

(** C8, as stated, fails: in the state left by [1_D110] the stored date is
    [110]; after [OFF] and then the date-less update [2_x] nothing is
    written once the dwell ends, and the display keeps the level [0002]. *)
Lemma C8_short_date_not_redisplayed :
  let g := mkGlobals 1 "OFF" "110" in
  let r1 := loop_newline g in
  let r2 := loop_newline (with_line "2_x" (globals_of r1)) in
  frames (trace_of r2) = [(glyphs [0; 0; 0; 2], 1500)] /\
  ~ (segments (run_board board_after_setup (trace_of r1 ++ trace_of r2)) =
     date_segments (currentDateMMDD g)).
Proof.
  split; [reflexivity|]. vm_compute. discriminate.
Qed.

(** C8, amended: for every state whose stored date has at least four
    characters, a clear line followed by an update line (a separator that
    neither another separator nor a zero byte precedes) with no [D] or [d]
    after its separator shows the level for 1500 ms and then the first four
    characters of the date that was stored before the clear, which are its
    four digits when it is a date code. *)
Theorem C8_date_retained (g : Globals) (pre post : string) (b : Board) :
  absent "_" (serialData g) ->
  WString.startsWith "OFF" (serialData g) || WString.startsWith "off" (serialData g) = true ->
  absent "_" pre ->
  absent "000" pre ->
  WString.startsWith "D" post = false ->
  WString.startsWith "d" post = false ->
  (4 <= String.length (currentDateMMDD g))%nat ->
  let r1 := loop_newline g in
  let r2 := loop_newline (with_line (pre ++ String "_" post) (globals_of r1)) in
  let level := to_int (WString.toInt pre) in
  currentDateMMDD (globals_of r1) = currentDateMMDD g /\
  frames (trace_of r2) =
    [(showNumberDec_segments level true 4, 1500);
     (date_segments (currentDateMMDD g), 0)] /\
  segments (run_board b (trace_of r1 ++ trace_of r2)) =
    date_segments (currentDateMMDD g) /\
  (is_date_code (currentDateMMDD g) ->
   date_segments (currentDateMMDD g) = glyphs (digits_of (currentDateMMDD g))).
Proof.
  intros Habs Hoff Hpre Hz HD Hd Hlen r1 r2 level.
  assert (r1 = (tt, mkGlobals (currentAlertLevel g) "" (currentDateMMDD g),
                DisplayClear :: led_trace LEVEL_OFF)) as E1
    by (apply loop_newline_off; assumption).
  assert (r2 = (tt, mkGlobals level "" (currentDateMMDD g),
                led_trace level ++
                [DisplayShowNumberDec level true 4 0; Delay 1500] ++
                [DisplaySetSegments (date_segments (currentDateMMDD g))])) as E2.
  { subst r2. rewrite E1.
    rewrite (loop_newline_update
               (with_line (pre ++ String "_" post)
                  (globals_of (tt, mkGlobals (currentAlertLevel g) "" (currentDateMMDD g),
                               DisplayClear :: led_trace LEVEL_OFF)))
               pre post Hpre Hz eq_refl).
    fold level. rewrite stored_date_undated by assumption.
    unfold with_line, globals_of. cbn [fst snd currentDateMMDD].
    now rewrite date_trace_long by assumption. }
  clearbody r1 r2. subst r1 r2.
  unfold globals_of, trace_of. cbn [fst snd currentDateMMDD].
  split; [reflexivity|]. split; [|split].
  - rewrite frames_led. reflexivity.
  - rewrite !run_board_app. reflexivity.
  - apply date_segments_code.
Qed.

Lemma C8_date_retained_witness :
  let g := mkGlobals 3 "OFF" "1109" in
  let r1 := loop_newline g in
  let r2 := loop_newline (with_line "2_" (globals_of r1)) in
  frames (trace_of r2) = [(glyphs [0; 0; 0; 2], 1500); (glyphs [1; 1; 0; 9], 0)] /\
  segments (run_board board_after_setup (trace_of r1 ++ trace_of r2)) =
    glyphs [1; 1; 0; 9].
Proof.
  destruct (C8_date_retained (mkGlobals 3 "OFF" "1109") "2" "" board_after_setup)
    as (_ & Hf & Hs & _).
  - simpl. repeat split; discriminate.
  - reflexivity.
  - simpl. split; [discriminate | exact I].
  - simpl. split; [discriminate | exact I].
  - reflexivity.
  - reflexivity.
  - simpl. lia.
  - split; [exact Hf | exact Hs].
Defined.




(** C10: for every date shorter than four characters [displayDate] makes
    no call at all; so after an update line (a separator that neither
    another separator nor a zero byte precedes) that stores such a date the
    only display write is the level, and once the dwell has ended the
    display still shows the level instead of a date.  The date stored is
    the text after [D] or [d], up to a zero byte if there is one. *)
Theorem C10_short_date_keeps_level :
  (forall (mmdd : string) (g : Globals),
     (String.length mmdd < 4)%nat -> displayDate mmdd g = (tt, g, [])) /\
  (forall (g : Globals) (pre date : string) (c : ascii) (b : Board),
     absent "_" pre ->
     absent "000" pre ->
     c = "D"%char \/ c = "d"%char ->
     (String.length (WString.cstr date) < 4)%nat ->
     serialData g = (pre ++ String "_" (String c date))%string ->
     let r := loop_newline g in
     let level := to_int (WString.toInt pre) in
     currentDateMMDD (globals_of r) = WString.cstr date /\
     trace_of r = led_trace level ++ [DisplayShowNumberDec level true 4 0; Delay 1500] /\
     frames (trace_of r) = [(showNumberDec_segments level true 4, 1500)] /\
     segments (run_board b (trace_of r)) = showNumberDec_segments level true 4).
Proof.
  split.
  - intros mmdd g Hlen. now rewrite displayDate_run, date_trace_short.
  - intros g pre date c b Hpre Hz Hc Hlen Hline r level. subst r.
    rewrite (loop_newline_update g pre (String c date) Hpre Hz Hline). fold level.
    rewrite stored_date_of_dated by assumption.
    rewrite date_trace_short by assumption.
    unfold globals_of, trace_of. cbn [fst snd currentDateMMDD].
    repeat split.
    + rewrite frames_led. reflexivity.
    + rewrite run_board_app. reflexivity.
Qed.

Lemma C10_short_date_keeps_level_witness :
  let r := loop_newline (mkGlobals LEVEL_OFF "2_d11" "1109") in
  displayDate "11" (globals_of r) = (tt, globals_of r, []) /\
  currentDateMMDD (globals_of r) = "11" /\
  frames (trace_of r) = [(glyphs [0; 0; 0; 2], 1500)] /\
  segments (run_board board_after_setup (trace_of r)) = glyphs [0; 0; 0; 2].
Proof.
  split.
  - apply (proj1 C10_short_date_keeps_level). simpl. lia.
  - destruct (proj2 C10_short_date_keeps_level (mkGlobals LEVEL_OFF "2_d11" "1109")
                "2" "11" "d"%char board_after_setup) as (H2 & _ & H3 & H4).
    + simpl. split; [discriminate | exact I].
    + simpl. split; [discriminate | exact I].
    + right. reflexivity.
    + simpl. lia.
    + reflexivity.
    + repeat split; assumption.
Defined.

(** ** Further properties of the sketch *)

Section PassFacts.

Lemma append_nil_r (a : string) : (a ++ "")%string = a.
Proof. induction a as [|x a IH]; simpl; [reflexivity|now rewrite IH]. Qed.

Lemma append_snoc (a s : string) (c : ascii) :
  ((a ++ String c "") ++ s)%string = (a ++ String c s)%string.
Proof. induction a as [|x a IH]; simpl; [reflexivity|now rewrite IH]. Qed.

Lemma absent_dec (ch : ascii) (s : string) : {absent ch s} + {~ absent ch s}.
Proof.
  induction s as [|c s IH]; simpl.
  - left. exact I.
  - destruct (ascii_dec c ch) as [E|N].
    + right. intros [H _]. contradiction.
    + destruct IH as [Y|N']; [left; auto | right; intros [_ H]; contradiction].
Qed.

(** The three branches of the newline handler. *)
Lemma loop_newline_cases (g : Globals) :
  (exists pre post,
     absent "_" pre /\ absent "000" pre /\
     serialData g = (pre ++ String "_" post)%string /\
     loop_newline g =
     (tt, mkGlobals (to_int (WString.toInt pre)) ""
            (stored_date (WString.cstr post) (currentDateMMDD g)),
      led_trace (to_int (WString.toInt pre)) ++
      [DisplayShowNumberDec (to_int (WString.toInt pre)) true 4 0; Delay 1500] ++
      date_trace (stored_date (WString.cstr post) (currentDateMMDD g)))) \/
  (WString.indexOf "_" (serialData g) = -1 /\
   loop_newline g =
   (tt, mkGlobals (currentAlertLevel g) "" (currentDateMMDD g),
    DisplayClear :: led_trace LEVEL_OFF)) \/
  (WString.indexOf "_" (serialData g) = -1 /\
   loop_newline g =
   (tt, mkGlobals (currentAlertLevel g) "" (currentDateMMDD g),
    [SerialPrintln unexpected_message])).
Proof.
  destruct (indexOf_from_split "_" (serialData g) 0) as [Ha|(pre & post & E & Hpre & Hz)].
  - right.
    destruct (WString.startsWith "OFF" (serialData g) ||
              WString.startsWith "off" (serialData g)) eqn:Eoff.
    + left. split; [assumption|]. now apply loop_newline_off_at.
    + right. apply orb_false_iff in Eoff as [E1 E2].
      split; [assumption|]. now apply loop_newline_other_at.
  - left. exists pre, post. repeat split; try assumption.
    now apply loop_newline_update.
Qed.

Lemma loop_on_newline (g : Globals) :
  loop (Some "010"%char) g =
  (tt, globals_of (loop_newline g), trace_of (loop_newline g) ++ [Delay 10]).
Proof.
  unfold loop. cbn [Ascii.eqb Bool.eqb]. unfold bind, emit.
  destruct (loop_newline g) as [[[] g1] t1]. reflexivity.
Qed.

Lemma loop_on_cr (g : Globals) :
  loop (Some "013"%char) g = (tt, g, [Delay 10]).
Proof. reflexivity. Qed.

Lemma loop_on_text (c : ascii) (g : Globals) :
  c <> "010"%char -> c <> "013"%char ->
  loop (Some c) g = (tt, with_line (serialData g ++ String c "") g, [Delay 10]).
Proof.
  intros Hn Hr. unfold loop.
  destruct (Ascii.eqb_spec c "010") as [E|_]; [contradiction|].
  destruct (Ascii.eqb_spec c "013") as [E|_]; [contradiction|].
  reflexivity.
Qed.

Lemma with_line_twice (a b : string) (g : Globals) :
  with_line a (with_line b g) = with_line a g.
Proof. reflexivity. Qed.

Lemma loop_bytes_text (s : string) (g : Globals) :
  absent "010" s ->
  loop_bytes s g =
  (tt, with_line (serialData g ++ strip_cr s) g, repeat (Delay 10) (String.length s)).
Proof.
  revert g. induction s as [|c s IH]; intros g Hn.
  - simpl. unfold ret, with_line. rewrite append_nil_r. now destruct g.
  - simpl in Hn. destruct Hn as [Hc Hn].
    cbn [loop_bytes strip_cr String.length repeat]. unfold bind at 1.
    destruct (Ascii.eqb_spec c "013") as [->|Hr].
    + rewrite loop_on_cr, IH by assumption. reflexivity.
    + rewrite loop_on_text, IH by assumption.
      cbn [serialData with_line]. rewrite with_line_twice, append_snoc.
      reflexivity.
Qed.

Lemma loop_bytes_app (a b : string) (g : Globals) :
  loop_bytes (a ++ b) g = bind (loop_bytes a) (fun _ => loop_bytes b) g.
Proof.
  revert g. induction a as [|c a IH]; intros g.
  - simpl. unfold bind, ret. destruct (loop_bytes b g) as [[u g2] t2]. reflexivity.
  - cbn [append loop_bytes]. unfold bind.
    destruct (loop (Some c) g) as [[u g1] t1].
    rewrite IH. unfold bind.
    destruct (loop_bytes a g1) as [[u2 g2] t2].
    destruct (loop_bytes b g2) as [[u3 g3] t3].
    now rewrite app_assoc.
Qed.

Lemma elapsed_run (t : list Effect) (b : Board) :
  elapsed_ms (run_board b t) = elapsed_ms b + total_delay t.
Proof.
  revert b. induction t as [|e t IH]; intros b.
  - simpl. lia.
  - unfold run_board in *. cbn [fold_left]. rewrite IH.
    destruct e; cbn [step_board total_delay set_segments elapsed_ms]; try lia.
    destruct (pin =? PIN_RED); [simpl; lia|].
    destruct (pin =? PIN_GREEN); [simpl; lia|].
    destruct (pin =? PIN_BLUE); simpl; lia.
Qed.

Lemma total_delay_app (t1 t2 : list Effect) :
  total_delay (t1 ++ t2) = total_delay t1 + total_delay t2.
Proof.
  induction t1 as [|e t1 IH]; simpl; [reflexivity|].
  destruct e; lia.
Qed.

Lemma total_delay_led (level : Z) : total_delay (led_trace level) = 0.
Proof.
  unfold led_trace. now destruct (updateAlertLed_rgb level) as [[r g] b].
Qed.

Lemma total_delay_date (mmdd : string) : total_delay (date_trace mmdd) = 0.
Proof.
  unfold date_trace. now destruct (WString.length mmdd <? 4).
Qed.

Lemma total_delay_repeat (n : nat) :
  total_delay (repeat (Delay 10) n) = 10 * Z.of_nat n.
Proof.
  induction n as [|n IH]; [reflexivity|].
  cbn [repeat total_delay]. rewrite IH. lia.
Qed.


End PassFacts.

(** X1: bytes other than a newline only fill the buffer.  Carriage
    returns are dropped, every other byte is appended in order, each pass
    ends in [delay(10)], and the stored level and date, the LED, the display
    and the serial output are left alone. *)
Theorem assembler_accumulates (s : string) (g : Globals) (b : Board) :
  absent "010" s ->
  let r := loop_bytes s g in
  let b' := run_board b (trace_of r) in
  globals_of r = with_line (serialData g ++ strip_cr s) g /\
  trace_of r = repeat (Delay 10) (String.length s) /\
  led b' = led b /\ segments b' = segments b /\ serial_out b' = serial_out b /\
  elapsed_ms b' = elapsed_ms b + 10 * Z.of_nat (String.length s).
Proof.
  intros Hn r b'. subst b' r. rewrite (loop_bytes_text s g Hn).
  unfold globals_of, trace_of. cbn [fst snd].
  split; [reflexivity|]. split; [reflexivity|].
  rewrite elapsed_run, total_delay_repeat.
  assert (forall n b0, led (run_board b0 (repeat (Delay 10) n)) = led b0 /\
                       segments (run_board b0 (repeat (Delay 10) n)) = segments b0 /\
                       serial_out (run_board b0 (repeat (Delay 10) n)) = serial_out b0) as H.
  { induction n as [|n IH]; intros b0; [repeat split|].
    cbn [repeat]. unfold run_board in *. cbn [fold_left].
    destruct (IH (step_board b0 (Delay 10))) as (H1 & H2 & H3).
    rewrite H1, H2, H3. repeat split. }
  destruct (H (String.length s) b) as (H1 & H2 & H3). auto.
Qed.

Lemma assembler_accumulates_witness :
  let r := loop_bytes (String "1" (String "013" (String "_" "D1"))) initial_globals in
  globals_of r = with_line "1_D1" initial_globals /\
  trace_of r = repeat (Delay 10) 5.
Proof.
  destruct (assembler_accumulates (String "1" (String "013" (String "_" "D1")))
              initial_globals board_after_setup) as (H1 & H2 & _).
  - simpl. repeat split; discriminate.
  - split; [exact H1 | exact H2].
Defined.

(** X2: receiving a text and then a newline handles the text, less its
    carriage returns, as one line: the passes for the text only delay, then
    the line is handled, then the pass of the newline ends in [delay(10)].
    So a line ended by CR LF is handled as the same line ended by LF. *)
Theorem received_line_is_handled (s : string) (g : Globals) :
  absent "010" s ->
  let r := loop_newline (with_line (serialData g ++ strip_cr s) g) in
  loop_bytes (s ++ newline) g =
  (tt, globals_of r,
   repeat (Delay 10) (String.length s) ++ trace_of r ++ [Delay 10]).
Proof.
  intros Hn r. rewrite loop_bytes_app. unfold bind.
  rewrite (loop_bytes_text s g Hn).
  unfold newline. cbn [loop_bytes]. unfold bind.
  rewrite loop_on_newline. fold r. unfold ret.
  now rewrite app_nil_r.
Qed.

Lemma received_line_is_handled_witness :
  globals_of (loop_bytes (("2_D1225" ++ String "013" "") ++ newline) initial_globals) =
  mkGlobals 2 "" "1225".
Proof.
  rewrite (received_line_is_handled ("2_D1225" ++ String "013" "") initial_globals).
  - reflexivity.
  - simpl. repeat split; discriminate.
Defined.

(** X3: every pass that reads a newline leaves the buffer empty, whatever
    the line was, so nothing of a line reaches the next one. *)
Theorem newline_empties_buffer (g : Globals) :
  serialData (globals_of (loop (Some "010"%char) g)) = "".
Proof.
  rewrite loop_on_newline. unfold globals_of at 1. cbn [fst snd].
  destruct (loop_newline_cases g) as [(pre & post & _ & _ & _ & E) | [[_ E] | [_ E]]];
    rewrite E; reflexivity.
Qed.



(** X5: the dwell blocks the loop.  When the line, up to its first zero
    byte, holds a separator, the pass that reads its newline spends 1510 ms
    in [delay]; the pass for the newline of any other line spends 10 ms. *)
Theorem newline_pass_duration (g : Globals) (b : Board) :
  let t := trace_of (loop (Some "010"%char) g) in
  (~ absent "_" (WString.cstr (serialData g)) ->
   elapsed_ms (run_board b t) = elapsed_ms b + 1510) /\
  (absent "_" (WString.cstr (serialData g)) ->
   elapsed_ms (run_board b t) = elapsed_ms b + 10).
Proof.
  intros t. subst t. rewrite loop_on_newline. unfold trace_of at 1 3. cbn [snd].
  rewrite !elapsed_run, !total_delay_app.
  destruct (loop_newline_cases g) as [(pre & post & Hpre & Hz & Hl & E) | [[Ha E] | [Ha E]]];
    rewrite E; unfold trace_of; cbn [snd].
  - split; intros H.
    + rewrite !total_delay_app, total_delay_led, total_delay_date. simpl. lia.
    + exfalso. apply indexOf_none in H.
      rewrite Hl, indexOf_first in H by assumption. lia.
  - apply indexOf_none in Ha. split; intros H; [contradiction|].
    change (DisplayClear :: led_trace LEVEL_OFF) with ([DisplayClear] ++ led_trace LEVEL_OFF).
    rewrite total_delay_app, total_delay_led. simpl. lia.
  - apply indexOf_none in Ha. split; intros H; [contradiction|]. simpl. lia.
Qed.

Lemma newline_pass_duration_witness :
  elapsed_ms (run_board board_after_setup
                (trace_of (loop (Some "010"%char) (mkGlobals 1 "2_D1109" "0000")))) = 1510 /\
  elapsed_ms (run_board board_after_setup
                (trace_of (loop (Some "010"%char)
                             (mkGlobals 1 (String "000" "_x") "0000")))) = 10.
Proof.
  split.
  - apply (proj1 (newline_pass_duration (mkGlobals 1 "2_D1109" "0000") board_after_setup)).
    simpl. intros [_ [H _]]. apply H. reflexivity.
  - apply (proj2 (newline_pass_duration (mkGlobals 1 (String "000" "_x") "0000")
                    board_after_setup)).
    exact I.
Defined.

Section DisplayFacts.

Lemma char_shown (c : ascii) :
  to_uint8 (WString.toInt (WString.cstr (String c ""))) = shown_digit c.
Proof.
  destruct c as [[] [] [] [] [] [] [] []]; reflexivity.
Qed.

Lemma date_slices (c0 c1 c2 c3 : ascii) (rest : string) :
  let s := String c0 (String c1 (String c2 (String c3 rest))) in
  WString.substring 0 1 s = WString.cstr (String c0 "") /\
  WString.substring 1 2 s = WString.cstr (String c1 "") /\
  WString.substring 2 3 s = WString.cstr (String c2 "") /\
  WString.substring 3 4 s = WString.cstr (String c3 "").
Proof. cbv zeta. repeat split; try reflexivity. now destruct rest. Qed.

Lemma showNumber_loop_length (i : nat) (base num : Z) (neg lz : bool) (acc : list Z) :
  List.length (showNumber_loop i base num neg lz acc) = (i + List.length acc)%nat.
Proof.
  revert num neg acc. induction i as [|i IH]; intros num neg acc; [reflexivity|].
  cbn [showNumber_loop]. rewrite IH. simpl. lia.
Qed.

Lemma showNumberDec_length (num : Z) (lz : bool) (n : nat) :
  (0 < n)%nat -> List.length (showNumberDec_segments num lz n) = n.
Proof.
  intros Hn. unfold showNumberDec_segments.
  destruct ((to_uint16 (if num <? 0 then - num else num) =? 0) && negb lz).
  - rewrite List.length_app, repeat_length. simpl. lia.
  - rewrite showNumber_loop_length. simpl. lia.
Qed.

Lemma led_run_tail (b : Board) (level : Z) (mmdd : string) :
  led (run_board b ([DisplayShowNumberDec level true 4 0; Delay 1500] ++ date_trace mmdd)) =
  led b.
Proof.
  unfold date_trace. destruct (WString.length mmdd <? 4); reflexivity.
Qed.

End DisplayFacts.

(** X6: [displayDate] looks at the first four characters only.  For a date
    of four characters or more it writes one frame of four digits: a
    decimal digit is shown as itself and any other character as 0;
    whatever follows the fourth character is ignored. *)
Theorem displayDate_first_four (c0 c1 c2 c3 : ascii) (rest : string) (g : Globals) :
  displayDate (String c0 (String c1 (String c2 (String c3 rest)))) g =
  (tt, g,
   [DisplaySetSegments
      (glyphs [shown_digit c0; shown_digit c1; shown_digit c2; shown_digit c3])]).
Proof.
  rewrite displayDate_run, date_trace_long by (simpl; lia).
  unfold date_segments, date_digit. cbn [Nat.add].
  destruct (date_slices c0 c1 c2 c3 rest) as (E0 & E1 & E2 & E3).
  cbv zeta in E0, E1, E2, E3.
  rewrite E0, E1, E2, E3, !char_shown. reflexivity.
Qed.

(** X7: after an update line (a separator that neither another separator
    nor a zero byte precedes) the LED shows the colour of the level that is
    now stored; for a stored level other than 1, 2 and 3 (a level part
    without a number gives 0) the LED is off. *)
Theorem update_sets_led (g : Globals) (pre post : string) (b : Board) :
  absent "_" pre ->
  absent "000" pre ->
  serialData g = (pre ++ String "_" post)%string ->
  let r := loop_newline g in
  let level := currentAlertLevel (globals_of r) in
  led (run_board b (trace_of r)) = updateAlertLed_rgb level /\
  (level <> LEVEL_NORMAL -> level <> LEVEL_NOTICE -> level <> LEVEL_ALERT ->
   led (run_board b (trace_of r)) = (0, 0, 0)).
Proof.
  intros Hpre Hz Hline r level. subst level r.
  rewrite (loop_newline_update g pre post Hpre Hz Hline).
  unfold globals_of, trace_of. cbn [fst snd currentAlertLevel].
  set (level := to_int (WString.toInt pre)).
  assert (led (run_board b
                 (led_trace level ++
                  [DisplayShowNumberDec level true 4 0; Delay 1500] ++
                  date_trace (stored_date (WString.cstr post) (currentDateMMDD g)))) =
          updateAlertLed_rgb level) as H.
  { rewrite run_board_app, led_run_tail, run_board_led.
    now destruct (updateAlertLed_rgb level) as [[r gr] bl]. }
  split; [exact H|].
  intros H1 H2 H3. rewrite H. unfold updateAlertLed_rgb.
  apply Z.eqb_neq in H1, H2, H3. rewrite H1, H2, H3.
  now destruct (level =? LEVEL_OFF).
Qed.

Lemma update_sets_led_witness :
  led (run_board board_after_setup
         (trace_of (loop_newline (mkGlobals 1 "abc_D1109" "0000")))) = (0, 0, 0).
Proof.
  destruct (update_sets_led (mkGlobals 1 "abc_D1109" "0000") "abc" "D1109"
              board_after_setup) as [_ H].
  - simpl. repeat split; discriminate.
  - simpl. repeat split; discriminate.
  - reflexivity.
  - apply H; vm_compute; discriminate.
Defined.

(** X8: the clear command is a prefix match.  A line without separator
    that starts with [OFF] or [off], whatever follows, blanks the display
    and switches the LED off, prints nothing, keeps the stored date and
    empties the buffer. *)
Theorem clear_line_blanks (g : Globals) (rest : string) (b : Board) :
  absent "_" rest ->
  serialData g = ("OFF" ++ rest)%string \/ serialData g = ("off" ++ rest)%string ->
  let r := loop_newline g in
  let b' := run_board b (trace_of r) in
  segments b' = blank_segments /\ led b' = (0, 0, 0) /\
  serial_out b' = serial_out b /\
  currentDateMMDD (globals_of r) = currentDateMMDD g /\
  serialData (globals_of r) = "".
Proof.
  intros Hrest Hline r b'. subst b' r.
  assert (absent "_" (serialData g)) as Ha.
  { destruct Hline as [-> | ->]; simpl; repeat split; try discriminate; assumption. }
  assert (WString.startsWith "OFF" (serialData g) ||
          WString.startsWith "off" (serialData g) = true) as Hoff.
  { destruct Hline as [-> | ->]; destruct rest; reflexivity. }
  rewrite (loop_newline_off g Ha Hoff). repeat split.
Qed.

Lemma clear_line_blanks_witness :
  let g := mkGlobals 3 "offline" "1109" in
  let b := mkBoard 255 0 0 (glyphs [1; 1; 0; 9]) [] 0 in
  let r := loop_newline g in
  let b' := run_board b (trace_of r) in
  segments b' = blank_segments /\ led b' = (0, 0, 0) /\
  serial_out b' = serial_out b /\
  currentDateMMDD (globals_of r) = currentDateMMDD g /\
  serialData (globals_of r) = "".
Proof.
  apply (clear_line_blanks (mkGlobals 3 "offline" "1109") "line").
  - simpl. repeat split; discriminate.
  - right. reflexivity.
Defined.

(** [setup] leaves the LED off and the display blank whatever they showed
    before, and does not touch the globals. *)
Lemma setup_darkens (g : Globals) (b : Board) :
  let r := setup g in
  let b' := run_board b (trace_of r) in
  globals_of r = g /\ led b' = (0, 0, 0) /\ segments b' = blank_segments /\
  serial_out b' = serial_out b /\ elapsed_ms b' = elapsed_ms b.
Proof. repeat split. Qed.

Section LevelDisplayFacts.

Lemma digit_fits_byte (x : Z) : to_uint8 (x mod 10) = x mod 10.
Proof.
  unfold to_uint8. pose proof (Z.mod_pos_bound x 10). apply Z.mod_small. lia.
Qed.

Lemma show_four_digits (n : Z) :
  0 <= n <= 9999 ->
  showNumberDec_segments n true 4 =
  glyphs [n / 1000; n / 100 mod 10; n / 10 mod 10; n mod 10].
Proof.
  intros Hn. unfold showNumberDec_segments.
  replace (n <? 0) with false by (symmetry; apply Z.ltb_ge; lia).
  unfold to_uint16. rewrite Z.mod_small by lia.
  cbn [negb]. rewrite andb_false_r.
  cbn [showNumber_loop negb]. rewrite !andb_false_r, !digit_fits_byte.
  rewrite !Z.div_div by lia. change (10 * 10) with 100. change (100 * 10) with 1000.
  rewrite (Z.mod_small (n / 1000)).
  - reflexivity.
  - split; [apply Z.div_pos; lia | apply Z.div_lt_upper_bound; lia].
Qed.

Lemma frames_update_tail (level : Z) (mmdd : string) :
  frames ([DisplayShowNumberDec level true 4 0; Delay 1500] ++ date_trace mmdd) =
  (showNumberDec_segments level true 4, 1500) :: frames (date_trace mmdd).
Proof.
  unfold date_trace. destruct (WString.length mmdd <? 4); reflexivity.
Qed.

Lemma segments_update_tail (b : Board) (level : Z) (mmdd : string) :
  List.length (segments
    (run_board b ([DisplayShowNumberDec level true 4 0; Delay 1500] ++ date_trace mmdd))) = 4%nat.
Proof.
  unfold date_trace. destruct (WString.length mmdd <? 4).
  - cbn. apply showNumberDec_length. lia.
  - reflexivity.
Qed.

End LevelDisplayFacts.

(** X10: after an update line (a separator that neither another separator
    nor a zero byte precedes), a level between 0 and 9999 is shown during
    the dwell as its four decimal digits, thousands first, with leading
    zeros, for 1500 ms; the frames that follow are those of the date
    display. *)
Theorem level_shown_in_four_digits (g : Globals) (pre post : string) :
  absent "_" pre ->
  absent "000" pre ->
  serialData g = (pre ++ String "_" post)%string ->
  let r := loop_newline g in
  let n := currentAlertLevel (globals_of r) in
  0 <= n <= 9999 ->
  frames (trace_of r) =
  (glyphs [n / 1000; n / 100 mod 10; n / 10 mod 10; n mod 10], 1500)
    :: frames (date_trace (currentDateMMDD (globals_of r))).
Proof.
  intros Hpre Hz Hline r n. subst n r.
  rewrite (loop_newline_update g pre post Hpre Hz Hline).
  unfold globals_of, trace_of. cbn [fst snd currentAlertLevel currentDateMMDD].
  intros Hn.
  rewrite frames_led, frames_update_tail, show_four_digits by assumption.
  reflexivity.
Qed.

Lemma level_shown_in_four_digits_witness :
  frames (trace_of (loop_newline (mkGlobals 1 "307_D1225" "0000"))) =
  [(glyphs [0; 3; 0; 7], 1500); (glyphs [1; 2; 2; 5], 0)].
Proof.
  rewrite (level_shown_in_four_digits (mkGlobals 1 "307_D1225" "0000") "307" "D1225").
  - reflexivity.
  - simpl. repeat split; discriminate.
  - simpl. repeat split; discriminate.
  - reflexivity.
  - vm_compute. split; discriminate.
Defined.

(** X11: an update line (a separator that neither another separator nor
    a zero byte precedes) that carries a date leaves nothing of the earlier
    state: the globals after it and the calls it makes are the same from
    any two states that hold the line in the buffer. *)
Theorem dated_update_forgets_state (g1 g2 : Globals) (pre date : string) (c : ascii) :
  absent "_" pre ->
  absent "000" pre ->
  c = "D"%char \/ c = "d"%char ->
  serialData g1 = (pre ++ String "_" (String c date))%string ->
  serialData g2 = serialData g1 ->
  loop_newline g1 = loop_newline g2.
Proof.
  intros Hpre Hz Hc H1 H2. rewrite H1 in H2.
  rewrite (loop_newline_update g1 pre (String c date) Hpre Hz H1).
  rewrite (loop_newline_update g2 pre (String c date) Hpre Hz H2).
  now rewrite !stored_date_of_dated by assumption.
Qed.

Lemma dated_update_forgets_state_witness :
  loop_newline (mkGlobals 3 "1_d0101" "1225") =
  loop_newline (mkGlobals LEVEL_OFF "1_d0101" "0000").
Proof.
  apply (dated_update_forgets_state _ _ "1" "0101" "d").
  - simpl. split; [discriminate | exact I].
  - simpl. split; [discriminate | exact I].
  - right. reflexivity.
  - reflexivity.
  - reflexivity.
Defined.

Section Invariant.

Lemma segments_before_delay (b : Board) (t : list Effect) (ms : Z) :
  segments (run_board b (t ++ [Delay ms])) = segments (run_board b t).
Proof. rewrite run_board_app. reflexivity. Qed.

Lemma pass_invariant (rx : option ascii) (g : Globals) (b : Board) :
  level_in_int g -> List.length (segments b) = 4%nat ->
  level_in_int (globals_of (loop rx g)) /\
  List.length (segments (run_board b (trace_of (loop rx g)))) = 4%nat.
Proof.
  intros Hl Hs. destruct rx as [c|]; [|split; assumption].
  destruct (ascii_dec c "010") as [->|Hn].
  - rewrite loop_on_newline.
    destruct (loop_newline_cases g) as [(pre & post & _ & _ & _ & E) | [[_ E] | [_ E]]];
      rewrite E; unfold globals_of, trace_of; cbn [fst snd];
      rewrite segments_before_delay.
    + split; [apply to_int_range|].
      rewrite run_board_app. apply segments_update_tail.
    + split; [exact Hl|].
      change (DisplayClear :: led_trace LEVEL_OFF)
        with ([DisplayClear] ++ led_trace LEVEL_OFF).
      rewrite run_board_app, run_board_led.
      now destruct (updateAlertLed_rgb LEVEL_OFF) as [[r gr] bl].
    + split; [exact Hl | exact Hs].
  - destruct (ascii_dec c "013") as [->|Hr].
    + rewrite loop_on_cr. split; assumption.
    + rewrite loop_on_text by assumption. split; assumption.
Qed.

End Invariant.

(** X12: over any stream of bytes the stored level stays a value of type
    [int] and the display keeps four segment bytes: every display write of
    the sketch is a full frame. *)
Theorem stream_invariant (input : string) (g : Globals) (b : Board) :
  level_in_int g -> List.length (segments b) = 4%nat ->
  let r := loop_bytes input g in
  level_in_int (globals_of r) /\
  List.length (segments (run_board b (trace_of r))) = 4%nat.
Proof.
  revert g b. induction input as [|c input IH]; intros g b Hl Hs r; subst r.
  - split; assumption.
  - cbn [loop_bytes]. unfold bind.
    destruct (pass_invariant (Some c) g b Hl Hs) as [Hl1 Hs1].
    destruct (loop (Some c) g) as [[u g1] t1].
    unfold globals_of, trace_of in Hl1, Hs1. cbn [fst snd] in Hl1, Hs1.
    destruct (IH g1 (run_board b t1) Hl1 Hs1) as [Hl2 Hs2].
    destruct (loop_bytes input g1) as [[u2 g2] t2].
    unfold globals_of, trace_of in *. cbn [fst snd] in *.
    rewrite run_board_app. split; assumption.
Qed.

Lemma stream_invariant_witness :
  let r := loop_bytes ("70000_D12" ++ newline ++ "OFF" ++ newline) initial_globals in
  level_in_int (globals_of r) /\
  List.length (segments (run_board board_after_setup (trace_of r))) = 4%nat.
Proof.
  apply (stream_invariant ("70000_D12" ++ newline ++ "OFF" ++ newline)
           initial_globals board_after_setup).
  - unfold level_in_int, INT_MIN, INT_MAX, initial_globals, LEVEL_OFF.
    cbn [currentAlertLevel]. lia.
  - reflexivity.
Defined.

(** X13: lines are handled one after the other.  Two texts, each ended
    by a newline, are handled as two lines in order: the first is done,
    dwell and date display included, before the bytes of the second are
    read, and the second starts from an empty buffer. *)
Theorem two_lines_in_order (s1 s2 : string) (g : Globals) :
  absent "010" s1 -> absent "010" s2 ->
  let r1 := loop_newline (with_line (serialData g ++ strip_cr s1) g) in
  let r2 := loop_newline (with_line (strip_cr s2) (globals_of r1)) in
  loop_bytes ((s1 ++ newline) ++ (s2 ++ newline)) g =
  (tt, globals_of r2,
   (repeat (Delay 10) (String.length s1) ++ trace_of r1 ++ [Delay 10]) ++
   (repeat (Delay 10) (String.length s2) ++ trace_of r2 ++ [Delay 10])).
Proof.
  intros H1 H2 r1 r2.
  assert (forall s g0, absent "010" s ->
            loop_bytes (s ++ newline) g0 =
            (tt, globals_of (loop_newline (with_line (serialData g0 ++ strip_cr s) g0)),
             repeat (Delay 10) (String.length s) ++
             trace_of (loop_newline (with_line (serialData g0 ++ strip_cr s) g0)) ++
             [Delay 10])) as Hline.
  { intros s g0 Hs. rewrite loop_bytes_app. unfold bind.
    rewrite (loop_bytes_text s g0 Hs).
    unfold newline. cbn [loop_bytes]. unfold bind.
    rewrite loop_on_newline. unfold ret. now rewrite app_nil_r. }
  rewrite loop_bytes_app. unfold bind.
  rewrite (Hline s1 g H1). fold r1.
  rewrite (Hline s2 (globals_of r1) H2).
  assert (serialData (globals_of r1) = "") as Hempty.
  { subst r1.
    destruct (loop_newline_cases (with_line (serialData g ++ strip_cr s1) g))
      as [(pre & post & _ & _ & _ & E) | [[_ E] | [_ E]]]; rewrite E; reflexivity. }
  rewrite Hempty. cbn [append]. fold r2. reflexivity.
Qed.

Lemma two_lines_in_order_witness :
  frames (trace_of (loop_bytes (("3_D1225" ++ newline) ++ ("1_D0101" ++ newline))
                      initial_globals)) =
  [(glyphs [0; 0; 0; 3], 1500); (glyphs [1; 2; 2; 5], 80);
   (glyphs [0; 0; 0; 1], 1500); (glyphs [0; 1; 0; 1], 10)].
Proof.
  rewrite (two_lines_in_order "3_D1225" "1_D0101" initial_globals).
  - reflexivity.
  - simpl. repeat split; discriminate.
  - simpl. repeat split; discriminate.
Defined.

(** X9: from power-on.  After [setup], whatever the board showed before and
    whatever bytes are then received, the stored level is a value of type
    [int] and the display holds a full frame of four segment bytes; until
    the first newline arrives the LED is off and the display is blank. *)
Theorem power_on_invariant (input : string) (b : Board) :
  let r0 := setup initial_globals in
  let r := loop_bytes input (globals_of r0) in
  let b' := run_board b (trace_of r0 ++ trace_of r) in
  level_in_int (globals_of r) /\
  List.length (segments b') = 4%nat /\
  (absent "010" input -> led b' = (0, 0, 0) /\ segments b' = blank_segments).
Proof.
  intros r0 r b'. subst b' r r0.
  destruct (setup_darkens initial_globals b) as (Hg & Hled & Hseg & _).
  cbv zeta in Hg, Hled, Hseg. rewrite Hg, run_board_app.
  set (b0 := run_board b (trace_of (setup initial_globals))) in *.
  assert (forall s g bd,
            level_in_int g -> List.length (segments bd) = 4%nat ->
            level_in_int (globals_of (loop_bytes s g)) /\
            List.length (segments (run_board bd (trace_of (loop_bytes s g)))) = 4%nat)
    as Hinv.
  { induction s as [|c s IH]; intros g bd Hl Hs; [split; assumption|].
    cbn [loop_bytes]. unfold bind.
    destruct (pass_invariant (Some c) g bd Hl Hs) as [Hl1 Hs1].
    destruct (loop (Some c) g) as [[u g1] t1].
    unfold globals_of, trace_of in Hl1, Hs1. cbn [fst snd] in Hl1, Hs1.
    destruct (IH g1 (run_board bd t1) Hl1 Hs1) as [Hl2 Hs2].
    destruct (loop_bytes s g1) as [[u2 g2] t2].
    unfold globals_of, trace_of in *. cbn [fst snd] in *.
    rewrite run_board_app. split; assumption. }
  assert (level_in_int initial_globals) as Hl0.
  { unfold level_in_int, INT_MIN, INT_MAX, initial_globals, LEVEL_OFF.
    cbn [currentAlertLevel]. lia. }
  assert (List.length (segments b0) = 4%nat) as Hs0 by (rewrite Hseg; reflexivity).
  destruct (Hinv input initial_globals b0 Hl0 Hs0) as [H1 H2].
  split; [exact H1|]. split; [exact H2|].
  intros Hn. rewrite (loop_bytes_text input initial_globals Hn).
  unfold trace_of. cbn [snd].
  clear - Hled Hseg. revert Hled Hseg. generalize b0. clear b0.
  induction (String.length input) as [|n IH]; intros b0 Hled Hseg; [split; assumption|].
  cbn [repeat]. unfold run_board in *. cbn [fold_left].
  apply IH; [exact Hled | exact Hseg].
Qed.

Lemma power_on_invariant_witness :
  led (run_board (mkBoard 255 255 255 [] [] 0)
         (trace_of (setup initial_globals) ++
          trace_of (loop_bytes "2_D12" (globals_of (setup initial_globals))))) = (0, 0, 0).
Proof.
  destruct (power_on_invariant "2_D12" (mkBoard 255 255 255 [] [] 0)) as (_ & _ & H).
  apply H. simpl. repeat split; discriminate.
Defined.
